(** * Dynamic color resolution: a Rocq model of the scheme, the 2025 role
    catalog and the chroma-tone search

    Numbers of the TypeScript sources are modelled as exact rationals ([Q]):
    the paths studied here only compare them, add or subtract one unit, or
    multiply two catalog constants.  ARGB pixels and array lengths are [Z].
    Classes of the repository that the modelled files import without being
    part of them (Hct, TonalPalette, DynamicColor, the math helpers) appear
    as section variables or as definitions marked "Modelled from the spec". *)

From Stdlib Require Import ZArith QArith Qround Lqa Lia List Bool.
From stdpp Require Import strings list.

Local Open Scope Q_scope.

(* ===================================================================== *)
(** ** Numbers *)
(* ===================================================================== *)

(** [x < y] on numbers, as a boolean. *)
Definition Qltb (x y : Q) : bool := negb (Qle_bool y x).

(** [x >= y] on numbers, as a boolean. *)
Definition Qgeb (x y : Q) : bool := Qle_bool y x.

(** Modelled from the spec: math_utils.clampDouble, which the sources import
    but do not contain; "clamp the result to a caller-given
    [lowerBound, upperBound] window". *)
Definition clampDouble (min max input : Q) : Q :=
  if Qltb input min then min
  else if Qltb max input then max
  else input.

(** The outcome of a getter that may throw: the value, or the message of the
    [Error] it raises. *)
Inductive Result (A : Type) : Type :=
| Ok (value : A)
| Throw (message : string).
Arguments Ok {A} value.
Arguments Throw {A} message.

(* ===================================================================== *)
(** ** Colors and palettes (collaborators) *)
(* ===================================================================== *)

Module Hct.
(** A color in hue/chroma/tone with the pixel it stands for. *)
Record t : Type := mk { hue : Q; chroma : Q; tone : Q; toInt : Z }.
End Hct.

Module TonalPalette.
(** Modelled from the spec: "a hue+chroma pair treated as a function from
    tone to a renderable color", exposing a key color. *)
Record t : Type := mk { hue : Q; chroma : Q; keyColor : Hct.t }.

Section FromHueAndChroma.
Variable KeyColor_create : Q -> Q -> Hct.t.

(** Modelled from the spec: [fromHueAndChroma(h,c)] is the palette of hue [h]
    and chroma [c]; the key color is computed by the color-space
    collaborator. *)
Definition fromHueAndChroma (hue chroma : Q) : t :=
  {| hue := hue; chroma := chroma; keyColor := KeyColor_create hue chroma |}.
End FromHueAndChroma.
End TonalPalette.

(* ===================================================================== *)
(** ** Chroma-tone search (color_spec_2025.ts, lines 34-83) *)
(* ===================================================================== *)

Section ChromaToneSearch.
(** [Hct.from(hue, chroma, tone)]: the color-space collaborator. *)
Variable Hct_from : Q -> Q -> Q -> Hct.t.

(** [tone += byDecreasingTone ? -1.0 : 1.0]. *)
Definition stepTone (byDecreasingTone : bool) (tone : Q) : Q :=
  tone + (if byDecreasingTone then -1 else 1).

(** The [while] loop of [findBestToneForChroma]; one unit of [fuel] is spent
    per executed step, [None] means the fuel ran out. *)
Fixpoint findBestToneForChroma_loop (fuel : nat) (hue chroma : Q)
    (byDecreasingTone : bool) (tone : Q) (bestCandidate : Hct.t) (answer : Q)
    {struct fuel} : option Q :=
  if Qltb (Hct.chroma bestCandidate) chroma then
    if Qltb tone 0 || Qltb 100 tone then Some answer
    else
      match fuel with
      | O => None
      | S fuel' =>
          let tone' := stepTone byDecreasingTone tone in
          let newCandidate := Hct_from hue chroma tone' in
          if Qltb (Hct.chroma bestCandidate) (Hct.chroma newCandidate)
          then findBestToneForChroma_loop fuel' hue chroma byDecreasingTone
                 tone' newCandidate tone'
          else findBestToneForChroma_loop fuel' hue chroma byDecreasingTone
                 tone' bestCandidate answer
      end
  else Some answer.

(** The search with a given amount of fuel. *)
Definition findBestToneForChroma_fuel (fuel : nat) (hue chroma tone : Q)
    (byDecreasingTone : bool) : option Q :=
  findBestToneForChroma_loop fuel hue chroma byDecreasingTone tone
    (Hct_from hue chroma tone) tone.

(** [findBestToneForChroma]: 101 steps always suffice (see
    [findBestToneForChroma_fuel_101]), so the default is never used. *)
Definition findBestToneForChroma (hue chroma tone : Q)
    (byDecreasingTone : bool) : Q :=
  match findBestToneForChroma_fuel 101 hue chroma tone byDecreasingTone with
  | Some answer => answer
  | None => tone
  end.

(** [tMaxC(palette, lowerBound = 0, upperBound = 100, chromaMultiplier = 1)]. *)
Definition tMaxC (palette : TonalPalette.t) (lowerBound upperBound : Q)
    (chromaMultiplier : Q) : Q :=
  let answer :=
    findBestToneForChroma (TonalPalette.hue palette)
      (TonalPalette.chroma palette * chromaMultiplier) 100 true in
  clampDouble lowerBound upperBound answer.

(** [tMinC(palette, lowerBound = 0, upperBound = 100)]. *)
Definition tMinC (palette : TonalPalette.t) (lowerBound upperBound : Q) : Q :=
  let answer :=
    findBestToneForChroma (TonalPalette.hue palette)
      (TonalPalette.chroma palette) 0 false in
  clampDouble lowerBound upperBound answer.

(** The search as the specification words it: step by one unit, keep the best
    tone while the new sample strictly exceeds the current best, stop at the
    bound or at the first step that brings no improvement. *)
Fixpoint hillClimb_asSpecified (fuel : nat) (hue chroma : Q)
    (byDecreasingTone : bool) (tone : Q) (bestCandidate : Hct.t) (answer : Q)
    {struct fuel} : Q :=
  if Qltb tone 0 || Qltb 100 tone then answer
  else
    match fuel with
    | O => answer
    | S fuel' =>
        let tone' := stepTone byDecreasingTone tone in
        let newCandidate := Hct_from hue chroma tone' in
        if Qltb (Hct.chroma bestCandidate) (Hct.chroma newCandidate)
        then hillClimb_asSpecified fuel' hue chroma byDecreasingTone
               tone' newCandidate tone'
        else answer
    end.

(** [findBestToneForChroma] as the specification words it. *)
Definition findBestToneForChroma_asSpecified (hue chroma tone : Q)
    (byDecreasingTone : bool) : Q :=
  hillClimb_asSpecified 101 hue chroma byDecreasingTone tone
    (Hct_from hue chroma tone) tone.

(** The tone is in the range the loop keeps stepping in. *)
Definition inToneRange (tone : Q) : Prop := 0 <= tone /\ tone <= 100.

(** The tone reached after [k] steps from [tone]. *)
Definition toneAt (byDecreasingTone : bool) (tone : Q) (k : nat) : Q :=
  Nat.iter k (stepTone byDecreasingTone) tone.

(** The chroma sampled at the [k]-th stepped tone. *)
Definition sampleAt (hue chroma : Q) (byDecreasingTone : bool) (tone : Q)
    (k : nat) : Q :=
  Hct.chroma (Hct_from hue chroma (toneAt byDecreasingTone tone k)).
(** What is known when the loop is about to test its condition after [k]
    steps, the best candidate being the one sampled after [i] steps: it is
    the first maximum of the samples so far, and every earlier test found
    the tone in range and the target chroma not reached. *)
Record searchInvariant (hue chroma : Q) (byDecreasingTone : bool) (tone : Q)
    (k i : nat) : Prop := {
  inv_best_le : (i <= k)%nat;
  inv_best_max : forall j, (j <= k)%nat ->
    sampleAt hue chroma byDecreasingTone tone j
    <= sampleAt hue chroma byDecreasingTone tone i;
  inv_best_first : forall j, (j < i)%nat ->
    sampleAt hue chroma byDecreasingTone tone j
    < sampleAt hue chroma byDecreasingTone tone i;
  inv_continued : forall m, (m < k)%nat ->
    inToneRange (toneAt byDecreasingTone tone m) /\
    forall j, (j <= m)%nat -> sampleAt hue chroma byDecreasingTone tone j < chroma
}.

(** The loop stopped after [n] steps with the candidate of step [i]: the
    best sample has reached the target chroma, or the tone left the range. *)
Record searchStopped (hue chroma : Q) (byDecreasingTone : bool) (tone : Q)
    (n i : nat) : Prop := {
  stop_invariant : searchInvariant hue chroma byDecreasingTone tone n i;
  stop_reason :
    chroma <= sampleAt hue chroma byDecreasingTone tone i
    \/ toneAt byDecreasingTone tone n < 0
    \/ 100 < toneAt byDecreasingTone tone n
}.
End ChromaToneSearch.

(* ===================================================================== *)
(** ** The scheme (dynamic_scheme.ts) *)
(* ===================================================================== *)

(** [SpecVersion]: ['2021' | '2025']. *)
Inductive SpecVersion : Type := V2021 | V2025.

(** [DynamicSchemeOptions], the constructor's argument; [None] is an omitted
    (undefined) option. *)
Module DynamicSchemeOptions.
Record t : Type := mk {
  sourceColorHct : Hct.t;
  contrastLevel : Q;
  isDark : bool;
  specVersion : option SpecVersion;
  primaryPalette : option TonalPalette.t;
  secondaryPalette : option TonalPalette.t;
  tertiaryPalette : option TonalPalette.t;
  neutralPalette : option TonalPalette.t;
  neutralVariantPalette : option TonalPalette.t;
  errorPalette : option TonalPalette.t
}.
End DynamicSchemeOptions.

(** The interface [DynamicSchemePalettesDelegate]. *)
Module DynamicSchemePalettesDelegate.
Record t : Type := mk {
  getPrimaryPalette : Hct.t -> bool -> Q -> TonalPalette.t;
  getSecondaryPalette : Hct.t -> bool -> Q -> TonalPalette.t;
  getTertiaryPalette : Hct.t -> bool -> Q -> TonalPalette.t;
  getNeutralPalette : Hct.t -> bool -> Q -> TonalPalette.t;
  getNeutralVariantPalette : Hct.t -> bool -> Q -> TonalPalette.t;
  getErrorPalette : Hct.t -> bool -> Q -> option TonalPalette.t
}.
End DynamicSchemePalettesDelegate.

Module DynamicScheme.
(** The fields of a constructed scheme.  The field [colors] is the object
    [new MaterialDynamicColors()], built without any argument and hence the
    same for every scheme; it is a parameter of the getters below. *)
Record t : Type := mk {
  sourceColorHct : Hct.t;
  sourceColorArgb : Z;
  contrastLevel : Q;
  isDark : bool;
  specVersion : SpecVersion;
  primaryPalette : TonalPalette.t;
  secondaryPalette : TonalPalette.t;
  tertiaryPalette : TonalPalette.t;
  neutralPalette : TonalPalette.t;
  neutralVariantPalette : TonalPalette.t;
  errorPalette : TonalPalette.t
}.

(** [Object.assign({}, s, {isDark: ..., contrastLevel: ...})]. *)
Definition assign_isDark_contrastLevel (s : t) (dark : bool) (level : Q) : t :=
  {| sourceColorHct := sourceColorHct s;
     sourceColorArgb := sourceColorArgb s;
     contrastLevel := level;
     isDark := dark;
     specVersion := specVersion s;
     primaryPalette := primaryPalette s;
     secondaryPalette := secondaryPalette s;
     tertiaryPalette := tertiaryPalette s;
     neutralPalette := neutralPalette s;
     neutralVariantPalette := neutralVariantPalette s;
     errorPalette := errorPalette s |}.

Section StaticMethods.
(** [math.sanitizeDegreesDouble], imported by the sources. *)
Variable sanitizeDegreesDouble : Q -> Q.

(** [Math.min(hueBreakpoints.length - 1, hues.length)]. *)
Definition piecewiseSize (hueBreakpoints hues : list Q) : Z :=
  Z.min (Z.of_nat (length hueBreakpoints) - 1) (Z.of_nat (length hues)).

(** The test of the loop body at index [i]; an index out of range reads
    [undefined], which compares false. *)
Definition inBreakpointInterval (sourceHue : Q) (hueBreakpoints : list Q)
    (i : nat) : bool :=
  match nth_error hueBreakpoints i, nth_error hueBreakpoints (S i) with
  | Some lo, Some hi => Qgeb sourceHue lo && Qltb sourceHue hi
  | _, _ => false
  end.

(** The [for] loop of [getPiecewiseHue] from index [i], with [n] iterations
    left; [None] when the loop ends without returning. *)
Fixpoint getPiecewiseHue_loop (n : nat) (i : nat) (sourceHue : Q)
    (hueBreakpoints hues : list Q) : option Q :=
  match n with
  | O => None
  | S n' =>
      if inBreakpointInterval sourceHue hueBreakpoints i
      then Some (sanitizeDegreesDouble (nth i hues 0))
      else getPiecewiseHue_loop n' (S i) sourceHue hueBreakpoints hues
  end.

(** [DynamicScheme.getPiecewiseHue]. *)
Definition getPiecewiseHue (sourceColorHct : Hct.t)
    (hueBreakpoints hues : list Q) : Q :=
  let size := piecewiseSize hueBreakpoints hues in
  let sourceHue := Hct.hue sourceColorHct in
  match getPiecewiseHue_loop (Z.to_nat size) 0 sourceHue hueBreakpoints hues with
  | Some hue => hue
  | None => sourceHue
  end.

(** [DynamicScheme.getRotatedHue]. *)
Definition getRotatedHue (sourceColorHct : Hct.t)
    (hueBreakpoints rotations : list Q) : Q :=
  let rotation := getPiecewiseHue sourceColorHct hueBreakpoints rotations in
  let rotation :=
    if (piecewiseSize hueBreakpoints rotations <=? 0)%Z then 0 else rotation in
  sanitizeDegreesDouble (Hct.hue sourceColorHct + rotation).
End StaticMethods.
End DynamicScheme.

Section PalettesDelegates.
Variable KeyColor_create : Q -> Q -> Hct.t.
Variable Hct_isBlue : Q -> bool.
Variable sanitizeDegreesDouble : Q -> Q.

Local Abbreviation fromHueAndChroma :=
  (TonalPalette.fromHueAndChroma KeyColor_create).

(** [class DynamicSchemePalettesDelegateImpl2021]. *)
Definition spec2021 : DynamicSchemePalettesDelegate.t :=
  {| DynamicSchemePalettesDelegate.getPrimaryPalette :=
       fun sourceColorHct _ _ => fromHueAndChroma (Hct.hue sourceColorHct) 12.0;
     DynamicSchemePalettesDelegate.getSecondaryPalette :=
       fun sourceColorHct _ _ => fromHueAndChroma (Hct.hue sourceColorHct) 8.0;
     DynamicSchemePalettesDelegate.getTertiaryPalette :=
       fun sourceColorHct _ _ => fromHueAndChroma (Hct.hue sourceColorHct) 16.0;
     DynamicSchemePalettesDelegate.getNeutralPalette :=
       fun sourceColorHct _ _ => fromHueAndChroma (Hct.hue sourceColorHct) 2.0;
     DynamicSchemePalettesDelegate.getNeutralVariantPalette :=
       fun sourceColorHct _ _ => fromHueAndChroma (Hct.hue sourceColorHct) 2.0;
     DynamicSchemePalettesDelegate.getErrorPalette :=
       fun _ _ _ => None |}.

(** [class DynamicSchemePalettesDelegateImpl2025], which overrides every
    method of the 2021 delegate. *)
Definition spec2025 : DynamicSchemePalettesDelegate.t :=
  {| DynamicSchemePalettesDelegate.getPrimaryPalette :=
       fun sourceColorHct _ _ =>
         fromHueAndChroma (Hct.hue sourceColorHct)
           (if Hct_isBlue (Hct.hue sourceColorHct) then 12 else 8);
     DynamicSchemePalettesDelegate.getSecondaryPalette :=
       fun sourceColorHct _ _ =>
         fromHueAndChroma (Hct.hue sourceColorHct)
           (if Hct_isBlue (Hct.hue sourceColorHct) then 6 else 4);
     DynamicSchemePalettesDelegate.getTertiaryPalette :=
       fun sourceColorHct _ _ =>
         fromHueAndChroma
           (DynamicScheme.getRotatedHue sanitizeDegreesDouble sourceColorHct
              [0; 38; 105; 161; 204; 278; 333; 360]
              [-32; 26; 10; -39; 24; -15; -32])
           20;
     DynamicSchemePalettesDelegate.getNeutralPalette :=
       fun sourceColorHct _ _ => fromHueAndChroma (Hct.hue sourceColorHct) 1.4;
     DynamicSchemePalettesDelegate.getNeutralVariantPalette :=
       fun sourceColorHct _ _ =>
         fromHueAndChroma (Hct.hue sourceColorHct) (1.4 * 2.2);
     DynamicSchemePalettesDelegate.getErrorPalette :=
       fun sourceColorHct _ _ =>
         let errorHue :=
           DynamicScheme.getPiecewiseHue sanitizeDegreesDouble sourceColorHct
             [0; 3; 13; 23; 33; 43; 153; 273; 360]
             [12; 22; 32; 12; 22; 32; 22; 12] in
         Some (fromHueAndChroma errorHue 50) |}.

(** [getSpec(specVersion)]. *)
Definition getSpec (specVersion : SpecVersion) : DynamicSchemePalettesDelegate.t :=
  match specVersion with
  | V2025 => spec2025
  | V2021 => spec2021
  end.

(** [a ?? b] for an optional palette. *)
Definition orElse {A : Type} (a : option A) (b : A) : A :=
  match a with
  | Some x => x
  | None => b
  end.

(** [new DynamicScheme(args)]. *)
Definition newDynamicScheme (args : DynamicSchemeOptions.t) : DynamicScheme.t :=
  let source := DynamicSchemeOptions.sourceColorHct args in
  let contrastLevel := DynamicSchemeOptions.contrastLevel args in
  let isDark := DynamicSchemeOptions.isDark args in
  let specVersion := orElse (DynamicSchemeOptions.specVersion args) V2021 in
  {| DynamicScheme.sourceColorHct := source;
     DynamicScheme.sourceColorArgb := Hct.toInt source;
     DynamicScheme.contrastLevel := contrastLevel;
     DynamicScheme.isDark := isDark;
     DynamicScheme.specVersion := specVersion;
     DynamicScheme.primaryPalette :=
       orElse (DynamicSchemeOptions.primaryPalette args)
         (DynamicSchemePalettesDelegate.getPrimaryPalette (getSpec specVersion)
            source isDark contrastLevel);
     DynamicScheme.secondaryPalette :=
       orElse (DynamicSchemeOptions.secondaryPalette args)
         (DynamicSchemePalettesDelegate.getSecondaryPalette (getSpec specVersion)
            source isDark contrastLevel);
     DynamicScheme.tertiaryPalette :=
       orElse (DynamicSchemeOptions.tertiaryPalette args)
         (DynamicSchemePalettesDelegate.getTertiaryPalette (getSpec specVersion)
            source isDark contrastLevel);
     DynamicScheme.neutralPalette :=
       orElse (DynamicSchemeOptions.neutralPalette args)
         (DynamicSchemePalettesDelegate.getNeutralPalette (getSpec specVersion)
            source isDark contrastLevel);
     DynamicScheme.neutralVariantPalette :=
       orElse (DynamicSchemeOptions.neutralVariantPalette args)
         (DynamicSchemePalettesDelegate.getNeutralVariantPalette
            (getSpec specVersion) source isDark contrastLevel);
     DynamicScheme.errorPalette :=
       orElse (DynamicSchemeOptions.errorPalette args)
         (orElse
            (DynamicSchemePalettesDelegate.getErrorPalette (getSpec specVersion)
               source isDark contrastLevel)
            (fromHueAndChroma 25.0 84.0)) |}.
End PalettesDelegates.

(* ===================================================================== *)
(** ** Nodes of the role catalog *)
(* ===================================================================== *)

Module ContrastCurve.
(** [new ContrastCurve(low, normal, medium, high)]. *)
Record t : Type := mk { low : Q; normal : Q; medium : Q; high : Q }.
End ContrastCurve.

(** [getCurve(defaultContrast)]. *)
Definition getCurve (defaultContrast : Q) : ContrastCurve.t :=
  if Qeq_bool defaultContrast 1.5 then ContrastCurve.mk 1.5 1.5 3 4.5
  else if Qeq_bool defaultContrast 3 then ContrastCurve.mk 3 3 4.5 7
  else if Qeq_bool defaultContrast 4.5 then ContrastCurve.mk 4.5 4.5 7 11
  else if Qeq_bool defaultContrast 6 then ContrastCurve.mk 6 6 7 11
  else if Qeq_bool defaultContrast 7 then ContrastCurve.mk 7 7 11 21
  else if Qeq_bool defaultContrast 9 then ContrastCurve.mk 9 9 11 21
  else if Qeq_bool defaultContrast 11 then ContrastCurve.mk 11 11 21 21
  else if Qeq_bool defaultContrast 21 then ContrastCurve.mk 21 21 21 21
  else ContrastCurve.mk defaultContrast defaultContrast 7 21.

Module Role.
(** The roles of [ColorSpecDelegate], one per method of the interface.  A
    method call [this.primary()] inside a selector is the symbolic reference
    [Role.primary], looked up in the delegate when the selector is used. *)
Inductive t : Type :=
| primaryPaletteKeyColor | secondaryPaletteKeyColor | tertiaryPaletteKeyColor
| neutralPaletteKeyColor | neutralVariantPaletteKeyColor | errorPaletteKeyColor
| background | onBackground | surface | surfaceDim | surfaceBright
| surfaceContainerLowest | surfaceContainerLow | surfaceContainer
| surfaceContainerHigh | surfaceContainerHighest | onSurface | surfaceVariant
| onSurfaceVariant | inverseSurface | inverseOnSurface | outline
| outlineVariant | shadow | scrim | surfaceTint
| primary | primaryDim | onPrimary | primaryContainer | onPrimaryContainer
| inversePrimary
| secondary | secondaryDim | onSecondary | secondaryContainer
| onSecondaryContainer
| tertiary | tertiaryDim | onTertiary | tertiaryContainer | onTertiaryContainer
| error | errorDim | onError | errorContainer | onErrorContainer
| primaryFixed | primaryFixedDim | onPrimaryFixed | onPrimaryFixedVariant
| secondaryFixed | secondaryFixedDim | onSecondaryFixed
| onSecondaryFixedVariant
| tertiaryFixed | tertiaryFixedDim | onTertiaryFixed | onTertiaryFixedVariant.

(** The roles the interface lists under "Surfaces [S]" (color_spec.ts,
    lines 45-87). *)
Definition surfacesSection : list t :=
  [ background; onBackground; surface; surfaceDim; surfaceBright;
    surfaceContainerLowest; surfaceContainerLow; surfaceContainer;
    surfaceContainerHigh; surfaceContainerHighest; onSurface; surfaceVariant;
    onSurfaceVariant; inverseSurface; inverseOnSurface; outline;
    outlineVariant; shadow; scrim; surfaceTint ].

(** The surfaces of the theme: the background, the surface with its dim and
    bright variants, the surface containers and the surface variant. *)
Definition surfaceRoles : list t :=
  [ background; surface; surfaceDim; surfaceBright; surfaceContainerLowest;
    surfaceContainerLow; surfaceContainer; surfaceContainerHigh;
    surfaceContainerHighest; surfaceVariant ].

(** The roles whose node is given a chroma-multiplier selector in the 2025
    catalog, directly or by being the clone of one. *)
Definition chromaAdjusted : list t :=
  [ onBackground; surfaceDim; surfaceBright; surfaceContainerLow;
    surfaceContainer; surfaceContainerHigh; surfaceContainerHighest;
    onSurface; surfaceVariant; onSurfaceVariant; outline; outlineVariant ].
End Role.

Module ToneDeltaPair.
(** [TonePolarity]. *)
Inductive Polarity : Type := darker | lighter | relative_darker | relative_lighter.

(** [DeltaConstraint]. *)
Inductive Constraint : Type := exact | nearer | farther.

(** [new ToneDeltaPair(roleA, roleB, delta, polarity, stayTogether,
    constraint)]. *)
Record t : Type := mk {
  roleA : Role.t;
  roleB : Role.t;
  delta : Q;
  polarity : Polarity;
  stayTogether : bool;
  constraint : Constraint
}.
End ToneDeltaPair.

Module DynamicColor.
(** Modelled from the spec: the node [DynamicColor.fromPalette] builds, "name
    (unique id); palette selector; isBackground flag; optional background
    selector; optional explicit tone selector; optional contrast-curve
    selector; optional tone-delta-pair selector; optional chroma-multiplier
    selector".  [None] is an option the call leaves out; [isBackground] left
    out is [false]. *)
Record t : Type := mk {
  name : string;
  palette : DynamicScheme.t -> TonalPalette.t;
  tone : option (DynamicScheme.t -> Q);
  isBackground : bool;
  chromaMultiplier : option (DynamicScheme.t -> Q);
  background : option (DynamicScheme.t -> Role.t);
  contrastCurve : option (DynamicScheme.t -> option ContrastCurve.t);
  toneDeltaPair : option (DynamicScheme.t -> option ToneDeltaPair.t)
}.

(** Modelled from the spec: [clone()], "an alias copying another role's
    resolved node". *)
Definition clone (c : t) : t :=
  {| name := name c; palette := palette c; tone := tone c;
     isBackground := isBackground c; chromaMultiplier := chromaMultiplier c;
     background := background c; contrastCurve := contrastCurve c;
     toneDeltaPair := toneDeltaPair c |}.

(** [Object.assign(c, {name: n})]. *)
Definition assign_name (c : t) (n : string) : t :=
  {| name := n; palette := palette c; tone := tone c;
     isBackground := isBackground c; chromaMultiplier := chromaMultiplier c;
     background := background c; contrastCurve := contrastCurve c;
     toneDeltaPair := toneDeltaPair c |}.

(** The explicit tone rule of a node at a scheme, when it has one. *)
Definition toneRuleAt (c : t) (s : DynamicScheme.t) : option Q :=
  match tone c with
  | Some rule => Some (rule s)
  | None => None
  end.

(** The chroma multiplier of a node at a scheme, "default 1". *)
Definition chromaMultiplierAt (c : t) (s : DynamicScheme.t) : Q :=
  match chromaMultiplier c with
  | Some f => f s
  | None => 1
  end.
End DynamicColor.

(* ===================================================================== *)
(** ** The 2025 role catalog (color_spec_2025.ts, lines 116-933) *)
(* ===================================================================== *)

Module ColorSpecDelegateImpl2025.
Import DynamicScheme DynamicColor.

Section Catalog.
(** [Hct.from] and [Hct.isYellow]: the color-space collaborator. *)
Variable Hct_from : Q -> Q -> Q -> Hct.t.
Variable Hct_isYellow : Q -> bool.
(** [this.role().getTone(s)]: the tone the node of a role resolves to, a
    method of the class DynamicColor. *)
Variable DynamicColor_getTone : Role.t -> DynamicScheme.t -> Q.
(** [DynamicColor.getInitialToneFromBackground(background)(s)]. *)
Variable DynamicColor_getInitialToneFromBackground :
  (DynamicScheme.t -> Role.t) -> DynamicScheme.t -> Q.

(** [highestSurface(s)]. *)
Definition highestSurface (s : DynamicScheme.t) : Role.t :=
  if isDark s then Role.surfaceBright else Role.surfaceDim.

(** [primaryPaletteKeyColor()]. *)
Definition primaryPaletteKeyColor : DynamicColor.t :=
  {| name := "primary_palette_key_color";
     palette := fun s => primaryPalette s;
     tone := Some (fun s => Hct.tone (TonalPalette.keyColor (primaryPalette s)));
     isBackground := false;
     chromaMultiplier := None;
     background := None;
     contrastCurve := None;
     toneDeltaPair := None |}.

(** [secondaryPaletteKeyColor()]. *)
Definition secondaryPaletteKeyColor : DynamicColor.t :=
  {| name := "secondary_palette_key_color";
     palette := fun s => secondaryPalette s;
     tone := Some (fun s => Hct.tone (TonalPalette.keyColor (secondaryPalette s)));
     isBackground := false;
     chromaMultiplier := None;
     background := None;
     contrastCurve := None;
     toneDeltaPair := None |}.

(** [tertiaryPaletteKeyColor()]. *)
Definition tertiaryPaletteKeyColor : DynamicColor.t :=
  {| name := "tertiary_palette_key_color";
     palette := fun s => tertiaryPalette s;
     tone := Some (fun s => Hct.tone (TonalPalette.keyColor (tertiaryPalette s)));
     isBackground := false;
     chromaMultiplier := None;
     background := None;
     contrastCurve := None;
     toneDeltaPair := None |}.

(** [neutralPaletteKeyColor()]. *)
Definition neutralPaletteKeyColor : DynamicColor.t :=
  {| name := "neutral_palette_key_color";
     palette := fun s => neutralPalette s;
     tone := Some (fun s => Hct.tone (TonalPalette.keyColor (neutralPalette s)));
     isBackground := false;
     chromaMultiplier := None;
     background := None;
     contrastCurve := None;
     toneDeltaPair := None |}.

(** [neutralVariantPaletteKeyColor()]. *)
Definition neutralVariantPaletteKeyColor : DynamicColor.t :=
  {| name := "neutral_variant_palette_key_color";
     palette := fun s => neutralVariantPalette s;
     tone := Some (fun s => Hct.tone (TonalPalette.keyColor (neutralVariantPalette s)));
     isBackground := false;
     chromaMultiplier := None;
     background := None;
     contrastCurve := None;
     toneDeltaPair := None |}.

(** [errorPaletteKeyColor()]. *)
Definition errorPaletteKeyColor : DynamicColor.t :=
  {| name := "error_palette_key_color";
     palette := fun s => errorPalette s;
     tone := Some (fun s => Hct.tone (TonalPalette.keyColor (errorPalette s)));
     isBackground := false;
     chromaMultiplier := None;
     background := None;
     contrastCurve := None;
     toneDeltaPair := None |}.

(** [surface()]. *)
Definition surface : DynamicColor.t :=
  {| name := "surface";
     palette := fun s => neutralPalette s;
     tone := Some (fun s =>
         if isDark s then 4
         else if Hct_isYellow (TonalPalette.hue (neutralPalette s)) then 99 else 98);
     isBackground := true;
     chromaMultiplier := None;
     background := None;
     contrastCurve := None;
     toneDeltaPair := None |}.

(** [surfaceDim()]. *)
Definition surfaceDim : DynamicColor.t :=
  {| name := "surface_dim";
     palette := fun s => neutralPalette s;
     tone := Some (fun s =>
         if isDark s then 4
         else if Hct_isYellow (TonalPalette.hue (neutralPalette s)) then 90 else 87);
     isBackground := true;
     chromaMultiplier := Some (fun s => if negb (isDark s) then 2.5 else 1);
     background := None;
     contrastCurve := None;
     toneDeltaPair := None |}.

(** [surfaceBright()]. *)
Definition surfaceBright : DynamicColor.t :=
  {| name := "surface_bright";
     palette := fun s => neutralPalette s;
     tone := Some (fun s =>
         if isDark s then 18
         else if Hct_isYellow (TonalPalette.hue (neutralPalette s)) then 99 else 98);
     isBackground := true;
     chromaMultiplier := Some (fun s => if isDark s then 2.5 else 1);
     background := None;
     contrastCurve := None;
     toneDeltaPair := None |}.

(** [surfaceContainerLowest()]. *)
Definition surfaceContainerLowest : DynamicColor.t :=
  {| name := "surface_container_lowest";
     palette := fun s => neutralPalette s;
     tone := Some (fun s => if isDark s then 0 else 100);
     isBackground := true;
     chromaMultiplier := None;
     background := None;
     contrastCurve := None;
     toneDeltaPair := None |}.

(** [surfaceContainerLow()]. *)
Definition surfaceContainerLow : DynamicColor.t :=
  {| name := "surface_container_low";
     palette := fun s => neutralPalette s;
     tone := Some (fun s =>
         if isDark s then 6
         else if Hct_isYellow (TonalPalette.hue (neutralPalette s)) then 98 else 96);
     isBackground := true;
     chromaMultiplier := Some (fun _ => 1.3);
     background := None;
     contrastCurve := None;
     toneDeltaPair := None |}.

(** [surfaceContainer()]. *)
Definition surfaceContainer : DynamicColor.t :=
  {| name := "surface_container";
     palette := fun s => neutralPalette s;
     tone := Some (fun s =>
         if isDark s then 9
         else if Hct_isYellow (TonalPalette.hue (neutralPalette s)) then 96 else 94);
     isBackground := true;
     chromaMultiplier := Some (fun _ => 1.6);
     background := None;
     contrastCurve := None;
     toneDeltaPair := None |}.

(** [surfaceContainerHigh()]. *)
Definition surfaceContainerHigh : DynamicColor.t :=
  {| name := "surface_container_high";
     palette := fun s => neutralPalette s;
     tone := Some (fun s =>
         if isDark s then 12
         else if Hct_isYellow (TonalPalette.hue (neutralPalette s)) then 94 else 92);
     isBackground := true;
     chromaMultiplier := Some (fun _ => 1.9);
     background := None;
     contrastCurve := None;
     toneDeltaPair := None |}.

(** [surfaceContainerHighest()]. *)
Definition surfaceContainerHighest : DynamicColor.t :=
  {| name := "surface_container_highest";
     palette := fun s => neutralPalette s;
     tone := Some (fun s =>
         if isDark s then 15
         else if Hct_isYellow (TonalPalette.hue (neutralPalette s)) then 92 else 90);
     isBackground := true;
     chromaMultiplier := Some (fun _ => 2.2);
     background := None;
     contrastCurve := None;
     toneDeltaPair := None |}.

(** [onSurface()]. *)
Definition onSurface : DynamicColor.t :=
  {| name := "on_surface";
     palette := fun s => neutralPalette s;
     tone := Some (fun s =>
         DynamicColor_getInitialToneFromBackground (fun s => highestSurface s) s);
     isBackground := false;
     chromaMultiplier := Some (fun _ => 2.2);
     background := Some (fun s => highestSurface s);
     contrastCurve := Some (fun s => Some (if isDark s then getCurve 11 else getCurve 9));
     toneDeltaPair := None |}.

(** [onSurfaceVariant()]. *)
Definition onSurfaceVariant : DynamicColor.t :=
  {| name := "on_surface_variant";
     palette := fun s => neutralPalette s;
     tone := None;
     isBackground := false;
     chromaMultiplier := Some (fun _ => 2.2);
     background := Some (fun s => highestSurface s);
     contrastCurve := Some (fun s => Some (if isDark s then getCurve 6 else getCurve 4.5));
     toneDeltaPair := None |}.

(** [outline()]. *)
Definition outline : DynamicColor.t :=
  {| name := "outline";
     palette := fun s => neutralPalette s;
     tone := None;
     isBackground := false;
     chromaMultiplier := Some (fun _ => 2.2);
     background := Some (fun s => highestSurface s);
     contrastCurve := Some (fun _ => Some (getCurve 3));
     toneDeltaPair := None |}.

(** [outlineVariant()]. *)
Definition outlineVariant : DynamicColor.t :=
  {| name := "outline_variant";
     palette := fun s => neutralPalette s;
     tone := None;
     isBackground := false;
     chromaMultiplier := Some (fun _ => 2.2);
     background := Some (fun s => highestSurface s);
     contrastCurve := Some (fun _ => Some (getCurve 1.5));
     toneDeltaPair := None |}.

(** [inverseSurface()]. *)
Definition inverseSurface : DynamicColor.t :=
  {| name := "inverse_surface";
     palette := fun s => neutralPalette s;
     tone := Some (fun s => if isDark s then 98 else 4);
     isBackground := true;
     chromaMultiplier := None;
     background := None;
     contrastCurve := None;
     toneDeltaPair := None |}.

(** [inverseOnSurface()]. *)
Definition inverseOnSurface : DynamicColor.t :=
  {| name := "inverse_on_surface";
     palette := fun s => neutralPalette s;
     tone := None;
     isBackground := false;
     chromaMultiplier := None;
     background := Some (fun _ => Role.inverseSurface);
     contrastCurve := Some (fun _ => Some (getCurve 7));
     toneDeltaPair := None |}.

(** [shadow()]. *)
Definition shadow : DynamicColor.t :=
  {| name := "shadow";
     palette := fun s => neutralPalette s;
     tone := Some (fun _ => 0);
     isBackground := false;
     chromaMultiplier := None;
     background := None;
     contrastCurve := None;
     toneDeltaPair := None |}.

(** [scrim()]. *)
Definition scrim : DynamicColor.t :=
  {| name := "scrim";
     palette := fun s => neutralPalette s;
     tone := Some (fun _ => 0);
     isBackground := false;
     chromaMultiplier := None;
     background := None;
     contrastCurve := None;
     toneDeltaPair := None |}.

(** [primary()]. *)
Definition primary : DynamicColor.t :=
  {| name := "primary";
     palette := fun s => primaryPalette s;
     tone := Some (fun s => if isDark s then 80 else 40);
     isBackground := true;
     chromaMultiplier := None;
     background := Some (fun s => highestSurface s);
     contrastCurve := Some (fun _ => Some (getCurve 4.5));
     toneDeltaPair := Some (fun _ =>
         Some (ToneDeltaPair.mk Role.primaryContainer Role.primary 5 ToneDeltaPair.relative_lighter true
                 ToneDeltaPair.farther)) |}.

(** [primaryDim()]. *)
Definition primaryDim : DynamicColor.t :=
  {| name := "primary_dim";
     palette := fun s => primaryPalette s;
     tone := Some (fun _ => 85);
     isBackground := true;
     chromaMultiplier := None;
     background := Some (fun _ => Role.surfaceContainerHigh);
     contrastCurve := Some (fun _ => Some (getCurve 4.5));
     toneDeltaPair := Some (fun _ =>
         Some (ToneDeltaPair.mk Role.primaryDim Role.primary 5 ToneDeltaPair.darker true
                 ToneDeltaPair.farther)) |}.

(** [onPrimary()]. *)
Definition onPrimary : DynamicColor.t :=
  {| name := "on_primary";
     palette := fun s => primaryPalette s;
     tone := None;
     isBackground := false;
     chromaMultiplier := None;
     background := Some (fun _ => Role.primary);
     contrastCurve := Some (fun _ => Some (getCurve 6));
     toneDeltaPair := None |}.

(** [primaryContainer()]. *)
Definition primaryContainer : DynamicColor.t :=
  {| name := "primary_container";
     palette := fun s => primaryPalette s;
     tone := Some (fun s => if isDark s then 30 else 90);
     isBackground := true;
     chromaMultiplier := None;
     background := Some (fun s => highestSurface s);
     contrastCurve := Some (fun s =>
         if Qltb 0 (contrastLevel s) then Some (getCurve 1.5) else None);
     toneDeltaPair := Some (fun _ => None) |}.

(** [onPrimaryContainer()]. *)
Definition onPrimaryContainer : DynamicColor.t :=
  {| name := "on_primary_container";
     palette := fun s => primaryPalette s;
     tone := None;
     isBackground := false;
     chromaMultiplier := None;
     background := Some (fun _ => Role.primaryContainer);
     contrastCurve := Some (fun _ => Some (getCurve 6));
     toneDeltaPair := None |}.

(** [primaryFixed()]. *)
Definition primaryFixed : DynamicColor.t :=
  {| name := "primary_fixed";
     palette := fun s => primaryPalette s;
     tone := Some (fun s =>
         let tempS := assign_isDark_contrastLevel s false 0 in
         DynamicColor_getTone Role.primaryContainer tempS);
     isBackground := true;
     chromaMultiplier := None;
     background := Some (fun s => highestSurface s);
     contrastCurve := Some (fun s =>
         if Qltb 0 (contrastLevel s) then Some (getCurve 1.5) else None);
     toneDeltaPair := None |}.

(** [primaryFixedDim()]. *)
Definition primaryFixedDim : DynamicColor.t :=
  {| name := "primary_fixed_dim";
     palette := fun s => primaryPalette s;
     tone := Some (fun s => DynamicColor_getTone Role.primaryFixed s);
     isBackground := true;
     chromaMultiplier := None;
     background := None;
     contrastCurve := None;
     toneDeltaPair := Some (fun _ =>
         Some (ToneDeltaPair.mk Role.primaryFixedDim Role.primaryFixed 5 ToneDeltaPair.darker true
                 ToneDeltaPair.exact)) |}.

(** [onPrimaryFixed()]. *)
Definition onPrimaryFixed : DynamicColor.t :=
  {| name := "on_primary_fixed";
     palette := fun s => primaryPalette s;
     tone := None;
     isBackground := false;
     chromaMultiplier := None;
     background := Some (fun _ => Role.primaryFixedDim);
     contrastCurve := Some (fun _ => Some (getCurve 7));
     toneDeltaPair := None |}.

(** [onPrimaryFixedVariant()]. *)
Definition onPrimaryFixedVariant : DynamicColor.t :=
  {| name := "on_primary_fixed_variant";
     palette := fun s => primaryPalette s;
     tone := None;
     isBackground := false;
     chromaMultiplier := None;
     background := Some (fun _ => Role.primaryFixedDim);
     contrastCurve := Some (fun _ => Some (getCurve 4.5));
     toneDeltaPair := None |}.

(** [inversePrimary()]. *)
Definition inversePrimary : DynamicColor.t :=
  {| name := "inverse_primary";
     palette := fun s => primaryPalette s;
     tone := Some (fun s => tMaxC Hct_from (primaryPalette s) 0 100 1);
     isBackground := false;
     chromaMultiplier := None;
     background := Some (fun _ => Role.inverseSurface);
     contrastCurve := Some (fun _ => Some (getCurve 6));
     toneDeltaPair := None |}.

(** [secondary()]. *)
Definition secondary : DynamicColor.t :=
  {| name := "secondary";
     palette := fun s => secondaryPalette s;
     tone := Some (fun s =>
         if isDark s then tMinC Hct_from (secondaryPalette s) 0 98
         else tMaxC Hct_from (secondaryPalette s) 0 100 1);
     isBackground := true;
     chromaMultiplier := None;
     background := Some (fun s => highestSurface s);
     contrastCurve := Some (fun _ => Some (getCurve 4.5));
     toneDeltaPair := Some (fun _ =>
         Some (ToneDeltaPair.mk Role.secondaryContainer Role.secondary 5 ToneDeltaPair.relative_lighter true
                 ToneDeltaPair.farther)) |}.

(** [secondaryDim()]. *)
Definition secondaryDim : DynamicColor.t :=
  {| name := "secondary_dim";
     palette := fun s => secondaryPalette s;
     tone := Some (fun _ => 85);
     isBackground := true;
     chromaMultiplier := None;
     background := Some (fun _ => Role.surfaceContainerHigh);
     contrastCurve := Some (fun _ => Some (getCurve 4.5));
     toneDeltaPair := Some (fun _ =>
         Some (ToneDeltaPair.mk Role.secondaryDim Role.secondary 5 ToneDeltaPair.darker true
                 ToneDeltaPair.farther)) |}.

(** [onSecondary()]. *)
Definition onSecondary : DynamicColor.t :=
  {| name := "on_secondary";
     palette := fun s => secondaryPalette s;
     tone := None;
     isBackground := false;
     chromaMultiplier := None;
     background := Some (fun _ => Role.secondary);
     contrastCurve := Some (fun _ => Some (getCurve 6));
     toneDeltaPair := None |}.

(** [secondaryContainer()]. *)
Definition secondaryContainer : DynamicColor.t :=
  {| name := "secondary_container";
     palette := fun s => secondaryPalette s;
     tone := Some (fun s => if isDark s then 25 else 90);
     isBackground := true;
     chromaMultiplier := None;
     background := Some (fun s => highestSurface s);
     contrastCurve := Some (fun s =>
         if Qltb 0 (contrastLevel s) then Some (getCurve 1.5) else None);
     toneDeltaPair := Some (fun _ => None) |}.

(** [onSecondaryContainer()]. *)
Definition onSecondaryContainer : DynamicColor.t :=
  {| name := "on_secondary_container";
     palette := fun s => secondaryPalette s;
     tone := None;
     isBackground := false;
     chromaMultiplier := None;
     background := Some (fun _ => Role.secondaryContainer);
     contrastCurve := Some (fun _ => Some (getCurve 6));
     toneDeltaPair := None |}.

(** [secondaryFixed()]. *)
Definition secondaryFixed : DynamicColor.t :=
  {| name := "secondary_fixed";
     palette := fun s => secondaryPalette s;
     tone := Some (fun s =>
         let tempS := assign_isDark_contrastLevel s false 0 in
         DynamicColor_getTone Role.secondaryContainer tempS);
     isBackground := true;
     chromaMultiplier := None;
     background := Some (fun s => highestSurface s);
     contrastCurve := Some (fun s =>
         if Qltb 0 (contrastLevel s) then Some (getCurve 1.5) else None);
     toneDeltaPair := None |}.

(** [secondaryFixedDim()]. *)
Definition secondaryFixedDim : DynamicColor.t :=
  {| name := "secondary_fixed_dim";
     palette := fun s => secondaryPalette s;
     tone := Some (fun s => DynamicColor_getTone Role.secondaryFixed s);
     isBackground := true;
     chromaMultiplier := None;
     background := None;
     contrastCurve := None;
     toneDeltaPair := Some (fun _ =>
         Some (ToneDeltaPair.mk Role.secondaryFixedDim Role.secondaryFixed 5 ToneDeltaPair.darker true
                 ToneDeltaPair.exact)) |}.

(** [onSecondaryFixed()]. *)
Definition onSecondaryFixed : DynamicColor.t :=
  {| name := "on_secondary_fixed";
     palette := fun s => secondaryPalette s;
     tone := None;
     isBackground := false;
     chromaMultiplier := None;
     background := Some (fun _ => Role.secondaryFixedDim);
     contrastCurve := Some (fun _ => Some (getCurve 7));
     toneDeltaPair := None |}.

(** [onSecondaryFixedVariant()]. *)
Definition onSecondaryFixedVariant : DynamicColor.t :=
  {| name := "on_secondary_fixed_variant";
     palette := fun s => secondaryPalette s;
     tone := None;
     isBackground := false;
     chromaMultiplier := None;
     background := Some (fun _ => Role.secondaryFixedDim);
     contrastCurve := Some (fun _ => Some (getCurve 4.5));
     toneDeltaPair := None |}.

(** [tertiary()]. *)
Definition tertiary : DynamicColor.t :=
  {| name := "tertiary";
     palette := fun s => tertiaryPalette s;
     tone := Some (fun s =>
         if isDark s then tMaxC Hct_from (tertiaryPalette s) 0 98 1
         else tMaxC Hct_from (tertiaryPalette s) 0 100 1);
     isBackground := true;
     chromaMultiplier := None;
     background := Some (fun s => highestSurface s);
     contrastCurve := Some (fun _ => Some (getCurve 4.5));
     toneDeltaPair := Some (fun _ =>
         Some (ToneDeltaPair.mk Role.tertiaryContainer Role.tertiary 5 ToneDeltaPair.relative_lighter true
                 ToneDeltaPair.farther)) |}.

(** [tertiaryDim()]. *)
Definition tertiaryDim : DynamicColor.t :=
  {| name := "tertiary_dim";
     palette := fun s => tertiaryPalette s;
     tone := Some (fun s => tMaxC Hct_from (tertiaryPalette s) 0 100 1);
     isBackground := true;
     chromaMultiplier := None;
     background := Some (fun _ => Role.surfaceContainerHigh);
     contrastCurve := Some (fun _ => Some (getCurve 4.5));
     toneDeltaPair := Some (fun _ =>
         Some (ToneDeltaPair.mk Role.tertiaryDim Role.tertiary 5 ToneDeltaPair.darker true
                 ToneDeltaPair.farther)) |}.

(** [onTertiary()]. *)
Definition onTertiary : DynamicColor.t :=
  {| name := "on_tertiary";
     palette := fun s => tertiaryPalette s;
     tone := None;
     isBackground := false;
     chromaMultiplier := None;
     background := Some (fun _ => Role.tertiary);
     contrastCurve := Some (fun _ => Some (getCurve 6));
     toneDeltaPair := None |}.

(** [tertiaryContainer()]. *)
Definition tertiaryContainer : DynamicColor.t :=
  {| name := "tertiary_container";
     palette := fun s => tertiaryPalette s;
     tone := Some (fun s =>
         if isDark s then tMaxC Hct_from (tertiaryPalette s) 0 93 1
         else tMaxC Hct_from (tertiaryPalette s) 0 96 1);
     isBackground := true;
     chromaMultiplier := None;
     background := Some (fun s => highestSurface s);
     contrastCurve := Some (fun s =>
         if Qltb 0 (contrastLevel s) then Some (getCurve 1.5) else None);
     toneDeltaPair := Some (fun _ => None) |}.

(** [onTertiaryContainer()]. *)
Definition onTertiaryContainer : DynamicColor.t :=
  {| name := "on_tertiary_container";
     palette := fun s => tertiaryPalette s;
     tone := None;
     isBackground := false;
     chromaMultiplier := None;
     background := Some (fun _ => Role.tertiaryContainer);
     contrastCurve := Some (fun _ => Some (getCurve 6));
     toneDeltaPair := None |}.

(** [tertiaryFixed()]. *)
Definition tertiaryFixed : DynamicColor.t :=
  {| name := "tertiary_fixed";
     palette := fun s => tertiaryPalette s;
     tone := Some (fun s =>
         let tempS := assign_isDark_contrastLevel s false 0 in
         DynamicColor_getTone Role.tertiaryContainer tempS);
     isBackground := true;
     chromaMultiplier := None;
     background := Some (fun s => highestSurface s);
     contrastCurve := Some (fun s =>
         if Qltb 0 (contrastLevel s) then Some (getCurve 1.5) else None);
     toneDeltaPair := None |}.

(** [tertiaryFixedDim()]. *)
Definition tertiaryFixedDim : DynamicColor.t :=
  {| name := "tertiary_fixed_dim";
     palette := fun s => tertiaryPalette s;
     tone := Some (fun s => DynamicColor_getTone Role.tertiaryFixed s);
     isBackground := true;
     chromaMultiplier := None;
     background := None;
     contrastCurve := None;
     toneDeltaPair := Some (fun _ =>
         Some (ToneDeltaPair.mk Role.tertiaryFixedDim Role.tertiaryFixed 5 ToneDeltaPair.darker true
                 ToneDeltaPair.exact)) |}.

(** [onTertiaryFixed()]. *)
Definition onTertiaryFixed : DynamicColor.t :=
  {| name := "on_tertiary_fixed";
     palette := fun s => tertiaryPalette s;
     tone := None;
     isBackground := false;
     chromaMultiplier := None;
     background := Some (fun _ => Role.tertiaryFixedDim);
     contrastCurve := Some (fun _ => Some (getCurve 7));
     toneDeltaPair := None |}.

(** [onTertiaryFixedVariant()]. *)
Definition onTertiaryFixedVariant : DynamicColor.t :=
  {| name := "on_tertiary_fixed_variant";
     palette := fun s => tertiaryPalette s;
     tone := None;
     isBackground := false;
     chromaMultiplier := None;
     background := Some (fun _ => Role.tertiaryFixedDim);
     contrastCurve := Some (fun _ => Some (getCurve 4.5));
     toneDeltaPair := None |}.

(** [error()]. *)
Definition error : DynamicColor.t :=
  {| name := "error";
     palette := fun s => errorPalette s;
     tone := Some (fun s =>
         if isDark s then tMinC Hct_from (errorPalette s) 0 98
         else tMaxC Hct_from (errorPalette s) 0 100 1);
     isBackground := true;
     chromaMultiplier := None;
     background := Some (fun s => highestSurface s);
     contrastCurve := Some (fun _ => Some (getCurve 4.5));
     toneDeltaPair := Some (fun _ =>
         Some (ToneDeltaPair.mk Role.errorContainer Role.error 5 ToneDeltaPair.relative_lighter true
                 ToneDeltaPair.farther)) |}.

(** [errorDim()]. *)
Definition errorDim : DynamicColor.t :=
  {| name := "error_dim";
     palette := fun s => errorPalette s;
     tone := Some (fun s => tMinC Hct_from (errorPalette s) 0 100);
     isBackground := true;
     chromaMultiplier := None;
     background := Some (fun _ => Role.surfaceContainerHigh);
     contrastCurve := Some (fun _ => Some (getCurve 4.5));
     toneDeltaPair := Some (fun _ =>
         Some (ToneDeltaPair.mk Role.errorDim Role.error 5 ToneDeltaPair.darker true
                 ToneDeltaPair.farther)) |}.

(** [onError()]. *)
Definition onError : DynamicColor.t :=
  {| name := "on_error";
     palette := fun s => errorPalette s;
     tone := None;
     isBackground := false;
     chromaMultiplier := None;
     background := Some (fun _ => Role.error);
     contrastCurve := Some (fun _ => Some (getCurve 6));
     toneDeltaPair := None |}.

(** [errorContainer()]. *)
Definition errorContainer : DynamicColor.t :=
  {| name := "error_container";
     palette := fun s => errorPalette s;
     tone := Some (fun s =>
         if isDark s then tMinC Hct_from (errorPalette s) 30 93
         else tMaxC Hct_from (errorPalette s) 0 90 1);
     isBackground := true;
     chromaMultiplier := None;
     background := Some (fun s => highestSurface s);
     contrastCurve := Some (fun s =>
         if Qltb 0 (contrastLevel s) then Some (getCurve 1.5) else None);
     toneDeltaPair := Some (fun _ => None) |}.

(** [onErrorContainer()]. *)
Definition onErrorContainer : DynamicColor.t :=
  {| name := "on_error_container";
     palette := fun s => errorPalette s;
     tone := None;
     isBackground := false;
     chromaMultiplier := None;
     background := Some (fun _ => Role.errorContainer);
     contrastCurve := Some (fun _ => Some (getCurve 4.5));
     toneDeltaPair := None |}.

(** [surfaceVariant()]: [Object.assign(this.surfaceContainerHighest().clone(), {name: 'surface_variant'})]. *)
Definition surfaceVariant : DynamicColor.t :=
  assign_name (clone surfaceContainerHighest) "surface_variant".

(** [surfaceTint()]: [Object.assign(this.primary().clone(), {name: 'surface_tint'})]. *)
Definition surfaceTint : DynamicColor.t :=
  assign_name (clone primary) "surface_tint".

(** [background()]: [Object.assign(this.surface().clone(), {name: 'background'})]. *)
Definition background : DynamicColor.t :=
  assign_name (clone surface) "background".

(** [onBackground()]: [Object.assign(this.onSurface().clone(), {name: 'on_background'})]. *)
Definition onBackground : DynamicColor.t :=
  assign_name (clone onSurface) "on_background".
(** The delegate as a lookup: the node a method of the class returns. *)
Definition node (r : Role.t) : DynamicColor.t :=
  match r with
  | Role.primaryPaletteKeyColor => primaryPaletteKeyColor
  | Role.secondaryPaletteKeyColor => secondaryPaletteKeyColor
  | Role.tertiaryPaletteKeyColor => tertiaryPaletteKeyColor
  | Role.neutralPaletteKeyColor => neutralPaletteKeyColor
  | Role.neutralVariantPaletteKeyColor => neutralVariantPaletteKeyColor
  | Role.errorPaletteKeyColor => errorPaletteKeyColor
  | Role.background => background
  | Role.onBackground => onBackground
  | Role.surface => surface
  | Role.surfaceDim => surfaceDim
  | Role.surfaceBright => surfaceBright
  | Role.surfaceContainerLowest => surfaceContainerLowest
  | Role.surfaceContainerLow => surfaceContainerLow
  | Role.surfaceContainer => surfaceContainer
  | Role.surfaceContainerHigh => surfaceContainerHigh
  | Role.surfaceContainerHighest => surfaceContainerHighest
  | Role.onSurface => onSurface
  | Role.surfaceVariant => surfaceVariant
  | Role.onSurfaceVariant => onSurfaceVariant
  | Role.inverseSurface => inverseSurface
  | Role.inverseOnSurface => inverseOnSurface
  | Role.outline => outline
  | Role.outlineVariant => outlineVariant
  | Role.shadow => shadow
  | Role.scrim => scrim
  | Role.surfaceTint => surfaceTint
  | Role.primary => primary
  | Role.primaryDim => primaryDim
  | Role.onPrimary => onPrimary
  | Role.primaryContainer => primaryContainer
  | Role.onPrimaryContainer => onPrimaryContainer
  | Role.inversePrimary => inversePrimary
  | Role.secondary => secondary
  | Role.secondaryDim => secondaryDim
  | Role.onSecondary => onSecondary
  | Role.secondaryContainer => secondaryContainer
  | Role.onSecondaryContainer => onSecondaryContainer
  | Role.tertiary => tertiary
  | Role.tertiaryDim => tertiaryDim
  | Role.onTertiary => onTertiary
  | Role.tertiaryContainer => tertiaryContainer
  | Role.onTertiaryContainer => onTertiaryContainer
  | Role.error => error
  | Role.errorDim => errorDim
  | Role.onError => onError
  | Role.errorContainer => errorContainer
  | Role.onErrorContainer => onErrorContainer
  | Role.primaryFixed => primaryFixed
  | Role.primaryFixedDim => primaryFixedDim
  | Role.onPrimaryFixed => onPrimaryFixed
  | Role.onPrimaryFixedVariant => onPrimaryFixedVariant
  | Role.secondaryFixed => secondaryFixed
  | Role.secondaryFixedDim => secondaryFixedDim
  | Role.onSecondaryFixed => onSecondaryFixed
  | Role.onSecondaryFixedVariant => onSecondaryFixedVariant
  | Role.tertiaryFixed => tertiaryFixed
  | Role.tertiaryFixedDim => tertiaryFixedDim
  | Role.onTertiaryFixed => onTertiaryFixed
  | Role.onTertiaryFixedVariant => onTertiaryFixedVariant
  end.
End Catalog.
End ColorSpecDelegateImpl2025.

(* ===================================================================== *)
(** ** Role getters of the scheme (dynamic_scheme.ts, lines 281-551) *)
(* ===================================================================== *)

Module MaterialDynamicColors.
(** The lookups of [this.colors] whose result may be [undefined]
    ([DynamicColor|undefined] in the interface); the class itself is imported
    by the sources. *)
Record t : Type := mk {
  primaryDim : option DynamicColor.t;
  secondaryDim : option DynamicColor.t;
  tertiaryDim : option DynamicColor.t;
  errorDim : option DynamicColor.t
}.
End MaterialDynamicColors.

(** Modelled from the spec: "role lookup returns a node from the delegate".
    The lookups of a [MaterialDynamicColors] that forwards to a delegate
    whose dim methods return a node, as those of [ColorSpecDelegateImpl2025],
    the only delegate of the sources, do (their return type is
    [DynamicColor], not [DynamicColor|undefined]). *)
Definition colorsOfDelegate (delegate : Role.t -> DynamicColor.t) :
    MaterialDynamicColors.t :=
  {| MaterialDynamicColors.primaryDim := Some (delegate Role.primaryDim);
     MaterialDynamicColors.secondaryDim := Some (delegate Role.secondaryDim);
     MaterialDynamicColors.tertiaryDim := Some (delegate Role.tertiaryDim);
     MaterialDynamicColors.errorDim := Some (delegate Role.errorDim) |}.

Section Getters.
(** [this.colors]. *)
Variable colors : MaterialDynamicColors.t.
(** [dynamicColor.getArgb(scheme)] and [dynamicColor.getHct(scheme)]. *)
Variable DynamicColor_getArgb : DynamicColor.t -> DynamicScheme.t -> Z.
Variable DynamicColor_getHct : DynamicColor.t -> DynamicScheme.t -> Hct.t.

(** [getArgb(dynamicColor)]. *)
Definition getArgb (this : DynamicScheme.t) (dynamicColor : DynamicColor.t) : Z :=
  DynamicColor_getArgb dynamicColor this.

(** [getHct(dynamicColor)]. *)
Definition getHct (this : DynamicScheme.t) (dynamicColor : DynamicColor.t) : Hct.t :=
  DynamicColor_getHct dynamicColor this.

(** [get primaryDim()]. *)
Definition get_primaryDim (this : DynamicScheme.t) : Result Z :=
  match MaterialDynamicColors.primaryDim colors with
  | None => Throw "`primaryDim` color is undefined prior to 2025 spec."
  | Some primaryDim => Ok (getArgb this primaryDim)
  end.

(** [get secondaryDim()]. *)
Definition get_secondaryDim (this : DynamicScheme.t) : Result Z :=
  match MaterialDynamicColors.secondaryDim colors with
  | None => Throw "`secondaryDim` color is undefined prior to 2025 spec."
  | Some secondaryDim => Ok (getArgb this secondaryDim)
  end.

(** [get tertiaryDim()]. *)
Definition get_tertiaryDim (this : DynamicScheme.t) : Result Z :=
  match MaterialDynamicColors.tertiaryDim colors with
  | None => Throw "`tertiaryDim` color is undefined prior to 2025 spec."
  | Some tertiaryDim => Ok (getArgb this tertiaryDim)
  end.

(** [get errorDim()]. *)
Definition get_errorDim (this : DynamicScheme.t) : Result Z :=
  match MaterialDynamicColors.errorDim colors with
  | None => Throw "`errorDim` color is undefined prior to 2025 spec."
  | Some errorDim => Ok (getArgb this errorDim)
  end.
End Getters.

(* ===================================================================== *)
(** ** Node resolution *)
(* ===================================================================== *)

(** Modelled from the spec: [ContrastCurve.valueAt], "four calibration points
    at contrast levels -1, 0, 0.5, 1; piecewise-linearly interpolates between
    the two bracketing points and clamps outside [-1,1]". *)
Definition ContrastCurve_valueAt (curve : ContrastCurve.t) (contrastLevel : Q) : Q :=
  let lerp (a b amount : Q) := (1 - amount) * a + amount * b in
  if Qle_bool contrastLevel (-1) then ContrastCurve.low curve
  else if Qltb contrastLevel 0 then
    lerp (ContrastCurve.low curve) (ContrastCurve.normal curve)
      (contrastLevel - -1)
  else if Qltb contrastLevel 0.5 then
    lerp (ContrastCurve.normal curve) (ContrastCurve.medium curve)
      (contrastLevel / 0.5)
  else if Qltb contrastLevel 1 then
    lerp (ContrastCurve.medium curve) (ContrastCurve.high curve)
      ((contrastLevel - 0.5) / 0.5)
  else ContrastCurve.high curve.

Section Resolution.
(** [Hct.from]: "the color-space capability clips chroma to stay in-gamut at
    the final tone" and yields the pixel. *)
Variable Hct_from : Q -> Q -> Q -> Hct.t.
(** The contrast search, under the formulas of the scheme's version: from
    the scheme, the base tone of the node's own rule (when it has one), the
    background tone and the target ratio to the tone that meets the target. *)
Variable contrastTone : DynamicScheme.t -> option Q -> Q -> Q -> Q.
(** The tone-delta-pair constraint of section 4.4, under the formulas of the
    scheme's version: from the scheme, the name of the node (its unique id,
    by which the constraint tells whether and which member of the pair the
    node is), the pair and the node's own tone to the adjusted tone of the
    node; the constraint resolves the tones of the members itself. *)
Variable applyToneDeltaPair :
  DynamicScheme.t -> string -> ToneDeltaPair.t -> Q -> Q.
(** The tone another role resolves to (the recursive call of the
    resolution). *)
Variable getTone : Role.t -> DynamicScheme.t -> Q.

(** Modelled from the spec: steps 2 and 3 of section 4.2, the tone of a node.
    A node is identified by its name, "name (unique id)". *)
Definition resolveTone (c : DynamicColor.t) (s : DynamicScheme.t) : Q :=
  let base :=
    match DynamicColor.tone c with
    | Some rule => Some (clampDouble 0 100 (rule s))
    | None => None
    end in
  let curve :=
    match DynamicColor.contrastCurve c with
    | Some selector => selector s
    | None => None
    end in
  let own :=
    match DynamicColor.background c, curve with
    | Some background, Some curve =>
        contrastTone s base (getTone (background s) s)
          (ContrastCurve_valueAt curve (DynamicScheme.contrastLevel s))
    | _, _ =>
        match base with
        | Some tone => tone
        | None => Hct.tone (TonalPalette.keyColor (DynamicColor.palette c s))
        end
    end in
  let deltaPair :=
    match DynamicColor.toneDeltaPair c with
    | Some selector => selector s
    | None => None
    end in
  match deltaPair with
  | Some deltaPair =>
      clampDouble 0 100
        (applyToneDeltaPair s (DynamicColor.name c) deltaPair own)
  | None => own
  end.

(** Modelled from the spec: [resolve(scheme) -> (hue, chroma, tone, pixel)],
    section 4.2; the class DynamicColor is imported by the sources. *)
Definition resolve (c : DynamicColor.t) (s : DynamicScheme.t) : Hct.t :=
  let palette := DynamicColor.palette c s in
  Hct_from (TonalPalette.hue palette)
    (TonalPalette.chroma palette * DynamicColor.chromaMultiplierAt c s)
    (resolveTone c s).
End Resolution.

(* ===================================================================== *)
(** ** Views of the catalog *)
(* ===================================================================== *)

(** The background role of a node at a scheme, when the node has a
    background selector. *)
Definition backgroundAt (c : DynamicColor.t) (s : DynamicScheme.t) :
    option Role.t :=
  match DynamicColor.background c with
  | Some selector => Some (selector s)
  | None => None
  end.

(** The contrast curve of a node at a scheme; [None] when the node has no
    selector or the selector returns [undefined]. *)
Definition contrastCurveAt (c : DynamicColor.t) (s : DynamicScheme.t) :
    option ContrastCurve.t :=
  match DynamicColor.contrastCurve c with
  | Some selector => selector s
  | None => None
  end.

(** The tone-delta pair of a node at a scheme; [None] when the node has no
    selector or the selector returns [undefined]. *)
Definition toneDeltaPairAt (c : DynamicColor.t) (s : DynamicScheme.t) :
    option ToneDeltaPair.t :=
  match DynamicColor.toneDeltaPair c with
  | Some selector => selector s
  | None => None
  end.

(** The ratios of a curve do not decrease from low to high contrast. *)
Definition curveMonotone (curve : ContrastCurve.t) : Prop :=
  ContrastCurve.low curve <= ContrastCurve.normal curve
  /\ ContrastCurve.normal curve <= ContrastCurve.medium curve
  /\ ContrastCurve.medium curve <= ContrastCurve.high curve.

(** The roles whose tone selector asks a collaborator: the key tone of a
    palette, [getInitialToneFromBackground], or [getTone] of another role. *)
Definition toneFromCollaborator : list Role.t :=
  [ Role.primaryPaletteKeyColor; Role.secondaryPaletteKeyColor;
    Role.tertiaryPaletteKeyColor; Role.neutralPaletteKeyColor;
    Role.neutralVariantPaletteKeyColor; Role.errorPaletteKeyColor;
    Role.onSurface; Role.onBackground;
    Role.primaryFixed; Role.primaryFixedDim;
    Role.secondaryFixed; Role.secondaryFixedDim;
    Role.tertiaryFixed; Role.tertiaryFixedDim ].

(** The remapped roles, built as renamed clones. *)
Definition remappedRoles : list Role.t :=
  [ Role.surfaceVariant; Role.surfaceTint; Role.background; Role.onBackground ].

(** The breakpoints and rotations of the 2025 tertiary palette. *)
Definition tertiaryBreakpoints2025 : list Q :=
  [0; 38; 105; 161; 204; 278; 333; 360].
Definition tertiaryRotations2025 : list Q := [-32; 26; 10; -39; 24; -15; -32].

(** The breakpoints and hues of the 2025 error palette. *)
Definition errorBreakpoints2025 : list Q :=
  [0; 3; 13; 23; 33; 43; 153; 273; 360].
Definition errorHues2025 : list Q := [12; 22; 32; 12; 22; 32; 22; 12].

(* ===================================================================== *)
(** ** Concrete collaborators used in the examples *)
(* ===================================================================== *)

(** A sampled chroma per tone: it rises from tone 100 downwards with a dip at
    tone 98, passes the value 12 at tone 95, and wobbles around it below. *)
Definition exampleChroma (tone : Q) : Q :=
  if Qeq_bool tone 100 then 3
  else if Qeq_bool tone 99 then 5
  else if Qeq_bool tone 98 then 4
  else if Qeq_bool tone 97 then 9
  else if Qeq_bool tone 96 then 11
  else if Qeq_bool tone 95 then 12.1
  else if Qeq_bool tone 94 then 12.4
  else if Qeq_bool tone 90 then 11.9
  else if Qeq_bool tone 89 then 12.3
  else 12.

(** A color space whose chroma at a tone is [exampleChroma]. *)
Definition exampleHct_from (hue chroma tone : Q) : Hct.t :=
  {| Hct.hue := hue; Hct.chroma := exampleChroma tone; Hct.tone := tone;
     Hct.toInt := 0 |}.

(** A color space in which every tone yields the same chroma, 5. *)
Definition flatHct_from (hue chroma tone : Q) : Hct.t :=
  {| Hct.hue := hue; Hct.chroma := 5; Hct.tone := tone; Hct.toInt := 0 |}.

(** A palette of hue 120 and chroma 12. *)
Definition examplePalette : TonalPalette.t :=
  {| TonalPalette.hue := 120; TonalPalette.chroma := 12;
     TonalPalette.keyColor := exampleHct_from 120 12 50 |}.

(** Degrees brought back into [0,360): a stand-in for
    [math.sanitizeDegreesDouble] in the examples. *)
Definition exampleSanitizeDegrees (degrees : Q) : Q :=
  degrees - inject_Z (360 * Qfloor (degrees / 360)).

(** A key color that keeps the hue and chroma asked for, at tone 50. *)
Definition exampleKeyColor (hue chroma : Q) : Hct.t :=
  {| Hct.hue := hue; Hct.chroma := chroma; Hct.tone := 50; Hct.toInt := 0 |}.

(** A seed color of hue 50. *)
Definition exampleSource : Hct.t :=
  {| Hct.hue := 50; Hct.chroma := 48; Hct.tone := 40; Hct.toInt := 0 |}.

(** Options that name the 2021 version and give no palette. *)
Definition exampleOptions2021 : DynamicSchemeOptions.t :=
  {| DynamicSchemeOptions.sourceColorHct := exampleSource;
     DynamicSchemeOptions.contrastLevel := 0;
     DynamicSchemeOptions.isDark := false;
     DynamicSchemeOptions.specVersion := Some V2021;
     DynamicSchemeOptions.primaryPalette := None;
     DynamicSchemeOptions.secondaryPalette := None;
     DynamicSchemeOptions.tertiaryPalette := None;
     DynamicSchemeOptions.neutralPalette := None;
     DynamicSchemeOptions.neutralVariantPalette := None;
     DynamicSchemeOptions.errorPalette := None |}.

(** The scheme built from [exampleOptions2021]. *)
Definition exampleScheme2021 : DynamicScheme.t :=
  newDynamicScheme exampleKeyColor (fun _ => false) exampleSanitizeDegrees
    exampleOptions2021.

(** A color space without chroma inside the tone range: only the tone -1,
    one step below the range, has some. *)
Definition lateHct_from (hue chroma tone : Q) : Hct.t :=
  {| Hct.hue := hue;
     Hct.chroma := if Qeq_bool tone (-1) then 1 else 0;
     Hct.tone := tone; Hct.toInt := 0 |}.

(** Options without palettes of the caller's, so that every palette is
    generated by the delegate of the version. *)
Definition generatedOptions (sourceColorHct : Hct.t) (contrastLevel : Q)
    (isDark : bool) (specVersion : option SpecVersion) :
    DynamicSchemeOptions.t :=
  {| DynamicSchemeOptions.sourceColorHct := sourceColorHct;
     DynamicSchemeOptions.contrastLevel := contrastLevel;
     DynamicSchemeOptions.isDark := isDark;
     DynamicSchemeOptions.specVersion := specVersion;
     DynamicSchemeOptions.primaryPalette := None;
     DynamicSchemeOptions.secondaryPalette := None;
     DynamicSchemeOptions.tertiaryPalette := None;
     DynamicSchemeOptions.neutralPalette := None;
     DynamicSchemeOptions.neutralVariantPalette := None;
     DynamicSchemeOptions.errorPalette := None |}.

(** The 2025 catalog over example collaborators: no hue is yellow, and every
    tone asked of a collaborator is 50. *)
Definition exampleNode : Role.t -> DynamicColor.t :=
  ColorSpecDelegateImpl2025.node exampleHct_from (fun _ => false)
    (fun _ _ => 50) (fun _ _ => 50).

(** A contrast search for the examples: it keeps the base tone of the node's
    rule, and takes the background tone when there is none. *)
Definition exampleContrastTone (s : DynamicScheme.t) (base : option Q)
    (backgroundTone ratio : Q) : Q :=
  match base with
  | Some tone => tone
  | None => backgroundTone
  end.

(** A tone-delta-pair constraint for the examples that knows the members of
    a pair by their names: the node named as the second member keeps its
    tone, any other node is taken for the first member and placed the delta
    above. *)
Definition exampleToneDeltaPair (s : DynamicScheme.t) (name : string)
    (deltaPair : ToneDeltaPair.t) (own : Q) : Q :=
  if String.eqb name
       (DynamicColor.name (exampleNode (ToneDeltaPair.roleB deltaPair)))
  then own
  else own + ToneDeltaPair.delta deltaPair.

(** A hue family test for the examples: hues from 105 up to 125 are yellow. *)
Definition exampleIsYellow (hue : Q) : bool := Qgeb hue 105 && Qltb hue 125.

(** A light 2021 scheme from a seed color of hue 110, a yellow one for
    [exampleIsYellow]. *)
Definition exampleYellowScheme : DynamicScheme.t :=
  newDynamicScheme exampleKeyColor (fun _ => false) exampleSanitizeDegrees
    (generatedOptions
       {| Hct.hue := 110; Hct.chroma := 48; Hct.tone := 40; Hct.toInt := 0 |}
       0 false (Some V2021)).

(* ===================================================================== *)
(** * Properties *)
(* ===================================================================== *)

(** ** Comparisons of numbers *)

Lemma Qltb_lt (x y : Q) : Qltb x y = true <-> x < y.
Proof.
  unfold Qltb. rewrite negb_true_iff.
  split; intros H.
  - apply Qnot_le_lt. intros Hle. apply Qle_bool_iff in Hle. congruence.
  - destruct (Qle_bool y x) eqn:E; [|reflexivity].
    apply Qle_bool_iff in E. lra.
Qed.

Lemma Qltb_ge (x y : Q) : Qltb x y = false <-> y <= x.
Proof.
  unfold Qltb. rewrite negb_false_iff. apply Qle_bool_iff.
Qed.

Lemma clampDouble_within (lo hi x : Q) :
  lo <= hi -> lo <= clampDouble lo hi x /\ clampDouble lo hi x <= hi.
Proof.
  intros Hle. unfold clampDouble.
  destruct (Qltb x lo) eqn:E1; [lra|].
  destruct (Qltb hi x) eqn:E2; [lra|].
  apply Qltb_ge in E1, E2. lra.
Qed.

Lemma clampDouble_id (lo hi x : Q) :
  lo <= x -> x <= hi -> clampDouble lo hi x = x.
Proof.
  intros H1 H2. unfold clampDouble.
  destruct (Qltb x lo) eqn:E1; [apply Qltb_lt in E1; lra|].
  destruct (Qltb hi x) eqn:E2; [apply Qltb_lt in E2; lra|reflexivity].
Qed.

(** ** The chroma-tone search *)

Section SearchFacts.
Variable Hct_from : Q -> Q -> Q -> Hct.t.
Variables hue chroma : Q.
Variable byDecreasingTone : bool.
Variable tone0 : Q.

Local Abbreviation loop :=
  (findBestToneForChroma_loop Hct_from).
Local Abbreviation toneOf := (toneAt byDecreasingTone tone0).
Local Abbreviation sample :=
  (sampleAt Hct_from hue chroma byDecreasingTone tone0).
Local Abbreviation searchInvariant :=
  (searchInvariant Hct_from hue chroma byDecreasingTone tone0).
Local Abbreviation searchStopped :=
  (searchStopped Hct_from hue chroma byDecreasingTone tone0).

Lemma outOfRange_false (tone : Q) :
  Qltb tone 0 || Qltb 100 tone = false <-> inToneRange tone.
Proof.
  unfold inToneRange. rewrite orb_false_iff, !Qltb_ge. reflexivity.
Qed.

Lemma outOfRange_true (tone : Q) :
  Qltb tone 0 || Qltb 100 tone = true <-> tone < 0 \/ 100 < tone.
Proof.
  rewrite orb_true_iff, !Qltb_lt. reflexivity.
Qed.

(** Enough fuel: the loop returns when the fuel exceeds the distance to the
    end of the range. *)
Lemma findBestToneForChroma_loop_returns (fuel : nat) :
  forall (tone : Q) (best : Hct.t) (answer : Q),
    (inToneRange tone ->
     if byDecreasingTone then tone < inject_Z (Z.of_nat fuel)
     else 100 - tone < inject_Z (Z.of_nat fuel)) ->
    exists a, loop fuel hue chroma byDecreasingTone tone best answer = Some a.
Proof.
  induction fuel as [|fuel IH]; intros tone best answer Hfuel; simpl.
  - destruct (Qltb (Hct.chroma best) chroma); [|eauto].
    destruct (Qltb tone 0 || Qltb 100 tone) eqn:Hr; [eauto|].
    apply outOfRange_false in Hr. specialize (Hfuel Hr).
    destruct Hr as [Hr1 Hr2]. exfalso.
    change (inject_Z (Z.of_nat 0)) with 0 in Hfuel.
    destruct byDecreasingTone; lra.
  - destruct (Qltb (Hct.chroma best) chroma); [|eauto].
    destruct (Qltb tone 0 || Qltb 100 tone) eqn:Hr; [eauto|].
    apply outOfRange_false in Hr. specialize (Hfuel Hr).
    assert (Hnext : inToneRange (stepTone byDecreasingTone tone) ->
                    if byDecreasingTone
                    then stepTone byDecreasingTone tone < inject_Z (Z.of_nat fuel)
                    else 100 - stepTone byDecreasingTone tone < inject_Z (Z.of_nat fuel)).
    { intros _. rewrite Nat2Z.inj_succ, <- Z.add_1_r, inject_Z_plus in Hfuel.
      change (inject_Z 1) with 1 in Hfuel.
      unfold stepTone. destruct byDecreasingTone; lra. }
    destruct (Qltb (Hct.chroma best)
                (Hct.chroma (Hct_from hue chroma (stepTone byDecreasingTone tone))));
      apply IH; exact Hnext.
Qed.

Lemma findBestToneForChroma_fuel_101 :
  findBestToneForChroma_fuel Hct_from 101 hue chroma tone0 byDecreasingTone
  = Some (findBestToneForChroma Hct_from hue chroma tone0 byDecreasingTone).
Proof.
  unfold findBestToneForChroma.
  destruct (findBestToneForChroma_loop_returns 101 tone0
              (Hct_from hue chroma tone0) tone0) as [a Ha].
  - intros [H0 H100]. change (inject_Z (Z.of_nat 101)) with 101.
    destruct byDecreasingTone; lra.
  - unfold findBestToneForChroma_fuel. rewrite Ha. reflexivity.
Qed.

Lemma findBestToneForChroma_loop_trace (fuel : nat) :
  forall (k i : nat) (a : Q),
    searchInvariant k i ->
    loop fuel hue chroma byDecreasingTone (toneOf k)
      (Hct_from hue chroma (toneOf i)) (toneOf i) = Some a ->
    exists n i', a = toneOf i' /\ searchStopped n i'.
Proof.
  induction fuel as [|fuel IH]; intros k i a Hinv Hloop; simpl in Hloop.
  - destruct (Qltb _ chroma) eqn:Hc.
    + destruct (Qltb (toneOf k) 0 || Qltb 100 (toneOf k)) eqn:Hr; [|discriminate].
      injection Hloop as <-. apply outOfRange_true in Hr.
      exists k, i. split; [reflexivity|]. split; [exact Hinv|tauto].
    + injection Hloop as <-. apply Qltb_ge in Hc.
      exists k, i. split; [reflexivity|]. split; [exact Hinv|left; exact Hc].
  - destruct (Qltb _ chroma) eqn:Hc.
    + destruct (Qltb (toneOf k) 0 || Qltb 100 (toneOf k)) eqn:Hr.
      * injection Hloop as <-. apply outOfRange_true in Hr.
        exists k, i. split; [reflexivity|]. split; [exact Hinv|tauto].
      * apply outOfRange_false in Hr. apply Qltb_lt in Hc.
        change (stepTone byDecreasingTone (toneOf k)) with (toneOf (S k)) in Hloop.
        fold (sample i) in Hc, Hloop. fold (sample (S k)) in Hloop.
        destruct Hinv as [Hle Hmax Hfirst Hcont].
        assert (Hcont' : forall m, (m < S k)%nat ->
                  inToneRange (toneOf m) /\
                  forall j, (j <= m)%nat -> sample j < chroma).
        { intros m Hm. destruct (Nat.eq_dec m k) as [->|Hne].
          - split; [exact Hr|]. intros j Hj. specialize (Hmax j Hj). lra.
          - apply Hcont. lia. }
        destruct (Qltb (sample i) (sample (S k))) eqn:Hnew.
        -- apply Qltb_lt in Hnew. apply (IH (S k) (S k) a); [|exact Hloop].
           split; [lia| | |exact Hcont'].
           ++ intros j Hj. destruct (Nat.eq_dec j (S k)) as [->|Hne]; [lra|].
              assert (Hjk : (j <= k)%nat) by lia. specialize (Hmax j Hjk). lra.
           ++ intros j Hj.
              assert (Hjk : (j <= k)%nat) by lia. specialize (Hmax j Hjk). lra.
        -- apply Qltb_ge in Hnew. apply (IH (S k) i a); [|exact Hloop].
           split; [lia| |exact Hfirst|exact Hcont'].
           intros j Hj. destruct (Nat.eq_dec j (S k)) as [->|Hne]; [exact Hnew|].
           apply Hmax. lia.
    + injection Hloop as <-. apply Qltb_ge in Hc.
      exists k, i. split; [reflexivity|]. split; [exact Hinv|left; exact Hc].
Qed.

Lemma searchInvariant_start : searchInvariant 0 0.
Proof.
  split.
  - lia.
  - intros j Hj. replace j with 0%nat by lia. lra.
  - intros j Hj. lia.
  - intros m Hm. lia.
Qed.

Lemma findBestToneForChroma_fuel_trace (fuel : nat) (a : Q) :
  findBestToneForChroma_fuel Hct_from fuel hue chroma tone0 byDecreasingTone
  = Some a ->
  exists n i, a = toneOf i /\ searchStopped n i.
Proof.
  intros Hfuel. unfold findBestToneForChroma_fuel in Hfuel.
  apply (findBestToneForChroma_loop_trace fuel 0 0).
  - apply searchInvariant_start.
  - exact Hfuel.
Qed.

(** The answer of the search, characterised by its trace. *)
Lemma findBestToneForChroma_trace :
  exists n i,
    findBestToneForChroma Hct_from hue chroma tone0 byDecreasingTone = toneOf i
    /\ searchStopped n i.
Proof.
  exact (findBestToneForChroma_fuel_trace 101 _ findBestToneForChroma_fuel_101).
Qed.
End SearchFacts.

(** The tone after [k] steps is [k] units away from the starting tone. *)
Lemma toneAt_value (byDecreasingTone : bool) (tone : Q) (k : nat) :
  toneAt byDecreasingTone tone k
  == tone + (if byDecreasingTone then -1 else 1) * inject_Z (Z.of_nat k).
Proof.
  induction k as [|k IH].
  - change (inject_Z (Z.of_nat 0)) with 0. unfold toneAt. simpl.
    destruct byDecreasingTone; lra.
  - change (toneAt byDecreasingTone tone (S k))
      with (stepTone byDecreasingTone (toneAt byDecreasingTone tone k)).
    unfold stepTone. rewrite IH.
    rewrite Nat2Z.inj_succ, <- Z.add_1_r, inject_Z_plus.
    change (inject_Z 1) with 1. destruct byDecreasingTone; lra.
Qed.

(** C1 (amended).  From the starting tone the search steps the tone by one
    unit toward the opposite end and keeps the best tone seen so far (the
    first tone whose sampled chroma is the largest among the tones sampled).
    It stops after [n] steps either because the tone has left [0,100] or
    because the best sampled chroma has reached the target chroma; until
    then every tested tone was in range and no sample had reached the
    target.  A step that brings no improvement does not stop it. *)
Theorem findBestToneForChroma_stops_at_bound_or_target
    (Hct_from : Q -> Q -> Q -> Hct.t) (hue chroma tone : Q)
    (byDecreasingTone : bool) :
  exists n i : nat,
    findBestToneForChroma Hct_from hue chroma tone byDecreasingTone
    = toneAt byDecreasingTone tone i
    /\ (forall k : nat,
         toneAt byDecreasingTone tone k
         == tone + (if byDecreasingTone then -1 else 1) * inject_Z (Z.of_nat k))
    /\ (i <= n)%nat
    /\ (forall m, (m < n)%nat ->
         inToneRange (toneAt byDecreasingTone tone m) /\
         forall j, (j <= m)%nat ->
           sampleAt Hct_from hue chroma byDecreasingTone tone j < chroma)
    /\ (chroma <= sampleAt Hct_from hue chroma byDecreasingTone tone i
        \/ toneAt byDecreasingTone tone n < 0
        \/ 100 < toneAt byDecreasingTone tone n)
    /\ (forall j, (j <= n)%nat ->
         sampleAt Hct_from hue chroma byDecreasingTone tone j
         <= sampleAt Hct_from hue chroma byDecreasingTone tone i)
    /\ (forall j, (j < i)%nat ->
         sampleAt Hct_from hue chroma byDecreasingTone tone j
         < sampleAt Hct_from hue chroma byDecreasingTone tone i).
Proof.
  destruct (findBestToneForChroma_trace Hct_from hue chroma byDecreasingTone tone)
    as (n & i & Ha & [[Hle Hmax Hfirst Hcont] Hstop]).
  exists n, i.
  split; [exact Ha|]. split; [intros k; apply toneAt_value|].
  repeat split; try assumption; apply Hcont; assumption.
Qed.

(** C1, as stated, fails: on [exampleHct_from] with target chroma 12 the
    search from tone 100 downwards answers 95, although the step to tone 98
    sampled no more chroma than the best seen before it (tone 99); the search
    that stops when improvement ceases answers 99. *)
Lemma findBestToneForChroma_continues_after_no_improvement :
  findBestToneForChroma exampleHct_from 120 12 100 true = 95
  /\ sampleAt exampleHct_from 120 12 true 100 2
     <= sampleAt exampleHct_from 120 12 true 100 1
  /\ findBestToneForChroma_asSpecified exampleHct_from 120 12 100 true = 99.
Proof.
  split; [vm_compute; reflexivity|].
  split; [vm_compute; discriminate|vm_compute; reflexivity].
Qed.

(** C6.  If no tone the search steps to samples strictly more chroma than
    the starting tone, the search returns the starting tone unchanged.  The
    tones stepped to are those one unit past a tone of [0,100], the last of
    them being the first tone outside the range. *)
Theorem findBestToneForChroma_returns_seed_without_improvement
    (Hct_from : Q -> Q -> Q -> Hct.t) (hue chroma tone : Q)
    (byDecreasingTone : bool) :
  (forall k : nat,
      inToneRange (toneAt byDecreasingTone tone k) ->
      sampleAt Hct_from hue chroma byDecreasingTone tone (S k)
      <= sampleAt Hct_from hue chroma byDecreasingTone tone 0) ->
  findBestToneForChroma Hct_from hue chroma tone byDecreasingTone = tone.
Proof.
  intros Hflat.
  destruct (findBestToneForChroma_trace Hct_from hue chroma byDecreasingTone tone)
    as (n & i & Ha & [[Hle Hmax Hfirst Hcont] Hstop]).
  rewrite Ha. destruct i as [|i]; [reflexivity|]. exfalso.
  assert (H0 : (0 < S i)%nat) by lia. specialize (Hfirst 0%nat H0).
  assert (Hi : (i < n)%nat) by lia. destruct (Hcont i Hi) as [Hrange _].
  specialize (Hflat i Hrange). lra.
Qed.

Lemma findBestToneForChroma_returns_seed_without_improvement_witness :
  findBestToneForChroma flatHct_from 120 40 100 true = 100
  /\ findBestToneForChroma flatHct_from 120 40 0 false = 0.
Proof.
  split.
  - apply (findBestToneForChroma_returns_seed_without_improvement
             flatHct_from 120 40 100 true).
    intros k _. unfold sampleAt. simpl. discriminate.
  - apply (findBestToneForChroma_returns_seed_without_improvement
             flatHct_from 120 40 0 false).
    intros k _. unfold sampleAt. simpl. discriminate.
Defined.




(** ** Piecewise hues *)

Lemma getPiecewiseHue_loop_unmatched (sanitizeDegreesDouble : Q -> Q)
    (sourceHue : Q) (hueBreakpoints hues : list Q) (n : nat) :
  forall i : nat,
    (forall j, (i <= j < i + n)%nat ->
       DynamicScheme.inBreakpointInterval sourceHue hueBreakpoints j = false) ->
    DynamicScheme.getPiecewiseHue_loop sanitizeDegreesDouble n i sourceHue
      hueBreakpoints hues = None.
Proof.
  induction n as [|n IH]; intros i Hno; simpl; [reflexivity|].
  rewrite (Hno i) by lia. apply IH. intros j Hj. apply Hno. lia.
Qed.

Lemma inBreakpointInterval_false (sourceHue : Q) (hueBreakpoints : list Q)
    (i : nat) :
  (forall lo hi,
      nth_error hueBreakpoints i = Some lo ->
      nth_error hueBreakpoints (S i) = Some hi ->
      ~ (lo <= sourceHue /\ sourceHue < hi)) ->
  DynamicScheme.inBreakpointInterval sourceHue hueBreakpoints i = false.
Proof.
  intros Hno. unfold DynamicScheme.inBreakpointInterval.
  destruct (nth_error hueBreakpoints i) as [lo|]; [|reflexivity].
  destruct (nth_error hueBreakpoints (S i)) as [hi|]; [|reflexivity].
  destruct (Qgeb sourceHue lo && Qltb sourceHue hi) eqn:E; [|reflexivity].
  apply andb_true_iff in E. destruct E as [E1 E2].
  apply Qle_bool_iff in E1. apply Qltb_lt in E2.
  exfalso. apply (Hno lo hi); auto.
Qed.

(** C9.  With tables that define at least one interval
    ([min(hueBreakpoints.length - 1, rotations.length) > 0]), a source hue
    that falls in none of the intervals is rotated by itself:
    [getRotatedHue] returns [sanitizeDegreesDouble(sourceHue + sourceHue)].
    The rotation is forced to 0, giving [sanitizeDegreesDouble(sourceHue + 0)],
    exactly when the tables define no interval; otherwise the rotation is the
    result of [getPiecewiseHue]. *)
Theorem getRotatedHue_unmatched_hue_is_doubled
    (sanitizeDegreesDouble : Q -> Q) (sourceColorHct : Hct.t)
    (hueBreakpoints rotations : list Q) :
  ((0 < DynamicScheme.piecewiseSize hueBreakpoints rotations)%Z ->
   (forall (i : nat) (lo hi : Q),
       (Z.of_nat i < DynamicScheme.piecewiseSize hueBreakpoints rotations)%Z ->
       nth_error hueBreakpoints i = Some lo ->
       nth_error hueBreakpoints (S i) = Some hi ->
       ~ (lo <= Hct.hue sourceColorHct /\ Hct.hue sourceColorHct < hi)) ->
   DynamicScheme.getRotatedHue sanitizeDegreesDouble sourceColorHct
     hueBreakpoints rotations
   = sanitizeDegreesDouble (Hct.hue sourceColorHct + Hct.hue sourceColorHct))
  /\ ((DynamicScheme.piecewiseSize hueBreakpoints rotations <= 0)%Z ->
      DynamicScheme.getRotatedHue sanitizeDegreesDouble sourceColorHct
        hueBreakpoints rotations
      = sanitizeDegreesDouble (Hct.hue sourceColorHct + 0))
  /\ ((0 < DynamicScheme.piecewiseSize hueBreakpoints rotations)%Z ->
      DynamicScheme.getRotatedHue sanitizeDegreesDouble sourceColorHct
        hueBreakpoints rotations
      = sanitizeDegreesDouble
          (Hct.hue sourceColorHct
           + DynamicScheme.getPiecewiseHue sanitizeDegreesDouble sourceColorHct
               hueBreakpoints rotations)).
Proof.
  unfold DynamicScheme.getRotatedHue. repeat split.
  - intros Hsize Hno.
    destruct (Z.leb_spec (DynamicScheme.piecewiseSize hueBreakpoints rotations) 0);
      [lia|].
    unfold DynamicScheme.getPiecewiseHue.
    rewrite getPiecewiseHue_loop_unmatched; [reflexivity|].
    intros j Hj. apply inBreakpointInterval_false. intros lo hi.
    apply Hno. lia.
  - intros Hsize.
    destruct (Z.leb_spec (DynamicScheme.piecewiseSize hueBreakpoints rotations) 0);
      [reflexivity|lia].
  - intros Hsize.
    destruct (Z.leb_spec (DynamicScheme.piecewiseSize hueBreakpoints rotations) 0);
      [lia|reflexivity].
Qed.

Lemma getRotatedHue_unmatched_hue_is_doubled_witness :
  DynamicScheme.getRotatedHue exampleSanitizeDegrees exampleSource [10; 20] [5]
  = exampleSanitizeDegrees (50 + 50).
Proof.
  destruct (getRotatedHue_unmatched_hue_is_doubled exampleSanitizeDegrees
              exampleSource [10; 20] [5]) as [Hdoubled _].
  apply Hdoubled.
  - vm_compute. reflexivity.
  - intros [|i] lo hi Hi Hlo Hhi.
    + simpl in Hlo, Hhi. injection Hlo as <-. injection Hhi as <-.
      simpl. intros [_ H]. revert H. vm_compute. discriminate.
    + exfalso. revert Hi. vm_compute. destruct i; discriminate.
Defined.

(** ** The error palette of a 2021 scheme *)

(** C10.  A scheme constructed for the 2021 version (named, or by default)
    without an error palette of the caller's has the error palette
    [TonalPalette.fromHueAndChroma(25.0, 84.0)], of hue 25.0 and chroma 84.0,
    whatever the source color, dark flag and contrast level: the 2021
    delegate returns no error palette. *)
Theorem newDynamicScheme_2021_errorPalette
    (KeyColor_create : Q -> Q -> Hct.t) (Hct_isBlue : Q -> bool)
    (sanitizeDegreesDouble : Q -> Q) (args : DynamicSchemeOptions.t) :
  (DynamicSchemeOptions.specVersion args = Some V2021
   \/ DynamicSchemeOptions.specVersion args = None) ->
  DynamicSchemeOptions.errorPalette args = None ->
  DynamicSchemePalettesDelegate.getErrorPalette
    (getSpec KeyColor_create Hct_isBlue sanitizeDegreesDouble V2021)
    (DynamicSchemeOptions.sourceColorHct args)
    (DynamicSchemeOptions.isDark args)
    (DynamicSchemeOptions.contrastLevel args) = None
  /\ DynamicScheme.errorPalette
       (newDynamicScheme KeyColor_create Hct_isBlue sanitizeDegreesDouble args)
     = TonalPalette.fromHueAndChroma KeyColor_create 25.0 84.0
  /\ TonalPalette.hue
       (DynamicScheme.errorPalette
          (newDynamicScheme KeyColor_create Hct_isBlue sanitizeDegreesDouble args))
     = 25.0
  /\ TonalPalette.chroma
       (DynamicScheme.errorPalette
          (newDynamicScheme KeyColor_create Hct_isBlue sanitizeDegreesDouble args))
     = 84.0.
Proof.
  intros Hversion Herror.
  assert (Hv : orElse (DynamicSchemeOptions.specVersion args) V2021 = V2021).
  { destruct Hversion as [-> | ->]; reflexivity. }
  unfold newDynamicScheme. cbn [DynamicScheme.errorPalette].
  rewrite Herror, Hv. cbn. repeat split.
Qed.

Lemma newDynamicScheme_2021_errorPalette_witness :
  TonalPalette.hue (DynamicScheme.errorPalette exampleScheme2021) = 25.0
  /\ TonalPalette.chroma (DynamicScheme.errorPalette exampleScheme2021) = 84.0.
Proof.
  apply (newDynamicScheme_2021_errorPalette exampleKeyColor (fun _ => false)
           exampleSanitizeDegrees exampleOptions2021).
  - left. reflexivity.
  - reflexivity.
Defined.

(** ** The dim roles *)

(** C3 (the code at the failing input).  Whether a dim getter throws does
    not depend on the scheme it is read from, hence not on the version of
    the scheme: the getter tests [this.colors.<role>Dim()], a lookup that is
    given neither the scheme nor its version.  With the lookups forwarding
    to a delegate whose dim methods return a node, as the only delegate of
    the sources does, each dim getter returns the pixel of that node on
    every scheme; so it does on the 2021 scheme [exampleScheme2021], where
    the message of the getter says the color is undefined. *)
Theorem dim_getters_ignore_specVersion :
  (forall (colors : MaterialDynamicColors.t)
          (DynamicColor_getArgb : DynamicColor.t -> DynamicScheme.t -> Z)
          (s1 s2 : DynamicScheme.t) (message : string),
      (get_primaryDim colors DynamicColor_getArgb s1 = Throw message
       <-> get_primaryDim colors DynamicColor_getArgb s2 = Throw message)
      /\ (get_secondaryDim colors DynamicColor_getArgb s1 = Throw message
          <-> get_secondaryDim colors DynamicColor_getArgb s2 = Throw message)
      /\ (get_tertiaryDim colors DynamicColor_getArgb s1 = Throw message
          <-> get_tertiaryDim colors DynamicColor_getArgb s2 = Throw message)
      /\ (get_errorDim colors DynamicColor_getArgb s1 = Throw message
          <-> get_errorDim colors DynamicColor_getArgb s2 = Throw message))
  /\ (forall (delegate : Role.t -> DynamicColor.t)
             (DynamicColor_getArgb : DynamicColor.t -> DynamicScheme.t -> Z)
             (s : DynamicScheme.t),
        get_primaryDim (colorsOfDelegate delegate) DynamicColor_getArgb s
        = Ok (DynamicColor_getArgb (delegate Role.primaryDim) s)
        /\ get_secondaryDim (colorsOfDelegate delegate) DynamicColor_getArgb s
           = Ok (DynamicColor_getArgb (delegate Role.secondaryDim) s)
        /\ get_tertiaryDim (colorsOfDelegate delegate) DynamicColor_getArgb s
           = Ok (DynamicColor_getArgb (delegate Role.tertiaryDim) s)
        /\ get_errorDim (colorsOfDelegate delegate) DynamicColor_getArgb s
           = Ok (DynamicColor_getArgb (delegate Role.errorDim) s))
  /\ DynamicScheme.specVersion exampleScheme2021 = V2021
  /\ get_primaryDim (colorsOfDelegate exampleNode) (fun _ _ => 0%Z)
       exampleScheme2021 = Ok 0%Z.
Proof.
  split; [|split; [|split]].
  - intros colors getArgb s1 s2 message.
    unfold get_primaryDim, get_secondaryDim, get_tertiaryDim, get_errorDim.
    destruct colors as [[p|] [q|] [t|] [e|]]; cbn;
      repeat split; intros H; try discriminate H; exact H.
  - intros delegate getArgb s. repeat split.
  - reflexivity.
  - reflexivity.
Qed.

(** ** Resolution of nodes *)

Section ResolutionFacts.
Variable Hct_from : Q -> Q -> Q -> Hct.t.
Variable contrastTone : DynamicScheme.t -> option Q -> Q -> Q -> Q.
Variable applyToneDeltaPair :
  DynamicScheme.t -> string -> ToneDeltaPair.t -> Q -> Q.
Variable getTone : Role.t -> DynamicScheme.t -> Q.

Local Abbreviation toneOfNode :=
  (resolveTone contrastTone applyToneDeltaPair getTone).
Local Abbreviation colorOfNode :=
  (resolve Hct_from contrastTone applyToneDeltaPair getTone).

(** The name of a node matters to its tone only through its tone-delta
    pair: a renamed clone of a node that has no pair on the scheme gets the
    tone of the node. *)
Lemma resolveTone_renamed (c : DynamicColor.t) (n : string)
    (s : DynamicScheme.t) :
  toneDeltaPairAt c s = None ->
  toneOfNode (DynamicColor.assign_name (DynamicColor.clone c) n) s
  = toneOfNode c s.
Proof.
  unfold toneDeltaPairAt, resolveTone. intros Hnone.
  cbn [DynamicColor.assign_name DynamicColor.clone DynamicColor.name
       DynamicColor.palette DynamicColor.tone DynamicColor.background
       DynamicColor.contrastCurve DynamicColor.toneDeltaPair].
  destruct (DynamicColor.toneDeltaPair c) as [selector|]; [|reflexivity].
  rewrite Hnone. reflexivity.
Qed.

Lemma resolve_renamed (c : DynamicColor.t) (n : string) (s : DynamicScheme.t) :
  toneDeltaPairAt c s = None ->
  colorOfNode (DynamicColor.assign_name (DynamicColor.clone c) n) s
  = colorOfNode c s.
Proof.
  intros Hnone. unfold resolve.
  rewrite (resolveTone_renamed c n s Hnone). reflexivity.
Qed.
End ResolutionFacts.

(** ** The 2025 catalog *)

Section Catalog2025Facts.
Variable Hct_from : Q -> Q -> Q -> Hct.t.
Variable Hct_isYellow : Q -> bool.
Variable DynamicColor_getTone : Role.t -> DynamicScheme.t -> Q.
Variable DynamicColor_getInitialToneFromBackground :
  (DynamicScheme.t -> Role.t) -> DynamicScheme.t -> Q.
Variable contrastTone : DynamicScheme.t -> option Q -> Q -> Q -> Q.
Variable applyToneDeltaPair :
  DynamicScheme.t -> string -> ToneDeltaPair.t -> Q -> Q.

Local Abbreviation node :=
  (ColorSpecDelegateImpl2025.node Hct_from Hct_isYellow DynamicColor_getTone
     DynamicColor_getInitialToneFromBackground).
Local Abbreviation resolve :=
  (resolve Hct_from contrastTone applyToneDeltaPair DynamicColor_getTone).

(** C5.  [highestSurface(s)] is the [surface_bright] node when [s.isDark] and
    the [surface_dim] node otherwise; among the surfaces of the theme
    ([Role.surfaceRoles]) its tone is the largest in dark mode and the
    smallest in light mode. *)
Theorem highestSurface_brightest_or_dimmest (s : DynamicScheme.t) :
  ColorSpecDelegateImpl2025.highestSurface s
  = (if DynamicScheme.isDark s then Role.surfaceBright else Role.surfaceDim)
  /\ DynamicColor.name (node (ColorSpecDelegateImpl2025.highestSurface s))
     = (if DynamicScheme.isDark s then "surface_bright" else "surface_dim")
  /\ forall r : Role.t,
       In r Role.surfaceRoles ->
       exists tone highest : Q,
         DynamicColor.toneRuleAt (node r) s = Some tone
         /\ DynamicColor.toneRuleAt
              (node (ColorSpecDelegateImpl2025.highestSurface s)) s
            = Some highest
         /\ (if DynamicScheme.isDark s then tone <= highest
             else highest <= tone).
Proof.
  unfold ColorSpecDelegateImpl2025.highestSurface.
  split; [reflexivity|].
  split; [destruct (DynamicScheme.isDark s); reflexivity|].
  intros r Hin. unfold DynamicColor.toneRuleAt.
  destruct (DynamicScheme.isDark s) eqn:Hdark;
    destruct (Hct_isYellow (TonalPalette.hue (DynamicScheme.neutralPalette s)))
      eqn:Hyellow;
    simpl in Hin;
    repeat (destruct Hin as [<-|Hin]; [|]); try contradiction;
    cbn; rewrite ?Hdark, ?Hyellow;
    (eexists; eexists; split; [reflexivity|split; [reflexivity|lra]]).
Qed.

(** C7.  In the 2025 catalog a role whose chroma multiplier differs from 1 on
    some scheme is one of the roles of [Role.chromaAdjusted], which are roles
    of the "Surfaces" group of the interface taking their palette from the
    neutral palette; every other role has no chroma-multiplier selector and
    so the default multiplier 1 on every scheme. *)
Theorem chromaMultiplier_only_on_neutral_surface_roles (r : Role.t) :
  ((exists s : DynamicScheme.t,
       ~ DynamicColor.chromaMultiplierAt (node r) s == 1) ->
   In r Role.chromaAdjusted)
  /\ (In r Role.chromaAdjusted ->
      In r Role.surfacesSection
      /\ forall s : DynamicScheme.t,
           DynamicColor.palette (node r) s = DynamicScheme.neutralPalette s)
  /\ (~ In r Role.chromaAdjusted ->
      DynamicColor.chromaMultiplier (node r) = None
      /\ forall s : DynamicScheme.t,
           DynamicColor.chromaMultiplierAt (node r) s = 1).
Proof.
  split; [|split].
  - intros [s Hs].
    destruct r; try (exfalso; apply Hs; reflexivity); simpl; tauto.
  - intros Hin. simpl in Hin.
    repeat (destruct Hin as [<-|Hin]; [split; [simpl; tauto|reflexivity]|]).
    contradiction.
  - intros Hout.
    destruct r; try (split; reflexivity); exfalso; apply Hout; simpl; tauto.
Qed.


(** The names of the catalog identify its roles. *)
Lemma node_name_injective (r1 r2 : Role.t) :
  DynamicColor.name (node r1) = DynamicColor.name (node r2) -> r1 = r2.
Proof.
  destruct r1; destruct r2; intros H; try reflexivity; discriminate H.
Qed.

End Catalog2025Facts.


(* ===================================================================== *)
(** * Further properties of the code *)
(* ===================================================================== *)

(** ** The chroma-tone search *)

Section SearchFurther.
Variable Hct_from : Q -> Q -> Q -> Hct.t.
Variables hue chroma : Q.
Variable byDecreasingTone : bool.
Variable tone0 : Q.

Local Abbreviation toneOf := (toneAt byDecreasingTone tone0).
Local Abbreviation sample :=
  (sampleAt Hct_from hue chroma byDecreasingTone tone0).

(** One step of the loop, with fuel. *)
Lemma findBestToneForChroma_loop_step (fuel : nat) (tone : Q) (best : Hct.t)
    (answer : Q) :
  findBestToneForChroma_loop Hct_from (S fuel) hue chroma byDecreasingTone tone
    best answer
  = if Qltb (Hct.chroma best) chroma then
      if Qltb tone 0 || Qltb 100 tone then Some answer
      else
        if Qltb (Hct.chroma best)
             (Hct.chroma (Hct_from hue chroma (stepTone byDecreasingTone tone)))
        then findBestToneForChroma_loop Hct_from fuel hue chroma
               byDecreasingTone (stepTone byDecreasingTone tone)
               (Hct_from hue chroma (stepTone byDecreasingTone tone))
               (stepTone byDecreasingTone tone)
        else findBestToneForChroma_loop Hct_from fuel hue chroma
               byDecreasingTone (stepTone byDecreasingTone tone) best answer
    else Some answer.
Proof. reflexivity. Qed.

(** More fuel does not change what the loop returns. *)
Lemma findBestToneForChroma_loop_more_fuel (fuel : nat) :
  forall (tone : Q) (best : Hct.t) (answer a : Q),
    findBestToneForChroma_loop Hct_from fuel hue chroma byDecreasingTone tone
      best answer = Some a ->
    findBestToneForChroma_loop Hct_from (S fuel) hue chroma byDecreasingTone
      tone best answer = Some a.
Proof.
  induction fuel as [|fuel IH]; intros tone best answer a Hloop.
  - simpl in Hloop. simpl.
    destruct (Qltb (Hct.chroma best) chroma); [|exact Hloop].
    destruct (Qltb tone 0 || Qltb 100 tone); [exact Hloop|discriminate].
  - rewrite findBestToneForChroma_loop_step in Hloop.
    rewrite findBestToneForChroma_loop_step.
    destruct (Qltb (Hct.chroma best) chroma); [|exact Hloop].
    destruct (Qltb tone 0 || Qltb 100 tone); [exact Hloop|].
    destruct (Qltb (Hct.chroma best)
                (Hct.chroma (Hct_from hue chroma (stepTone byDecreasingTone tone))));
      apply IH; exact Hloop.
Qed.

Lemma findBestToneForChroma_fuel_more (fuel extra : nat) (a : Q) :
  findBestToneForChroma_fuel Hct_from fuel hue chroma tone0 byDecreasingTone
  = Some a ->
  findBestToneForChroma_fuel Hct_from (extra + fuel) hue chroma tone0
    byDecreasingTone = Some a.
Proof.
  intros Hfuel. induction extra as [|extra IH]; [exact Hfuel|].
  unfold findBestToneForChroma_fuel in *.
  change (S extra + fuel)%nat with (S (extra + fuel)).
  apply findBestToneForChroma_loop_more_fuel. exact IH.
Qed.

(** X2.  The answer of the search is the starting tone when that tone is
    outside [0,100]; from a starting tone inside the range it lies between
    the starting tone and the first tone past the end of the range, which can
    be as low as -1 for a decreasing search and as high as 101 for an
    increasing one.  The chroma sampled at the answer is never below the
    chroma sampled at the starting tone. *)
Theorem findBestToneForChroma_answer_range :
  (inToneRange tone0 ->
   if byDecreasingTone
   then -1 <= findBestToneForChroma Hct_from hue chroma tone0 byDecreasingTone
        /\ findBestToneForChroma Hct_from hue chroma tone0 byDecreasingTone
           <= tone0
   else tone0 <= findBestToneForChroma Hct_from hue chroma tone0 byDecreasingTone
        /\ findBestToneForChroma Hct_from hue chroma tone0 byDecreasingTone
           <= 101)
  /\ (~ inToneRange tone0 ->
      findBestToneForChroma Hct_from hue chroma tone0 byDecreasingTone = tone0)
  /\ Hct.chroma (Hct_from hue chroma tone0)
     <= Hct.chroma
          (Hct_from hue chroma
             (findBestToneForChroma Hct_from hue chroma tone0 byDecreasingTone)).
Proof.
  destruct (findBestToneForChroma_trace Hct_from hue chroma byDecreasingTone tone0)
    as (n & i & Ha & [[Hle Hmax Hfirst Hcont] Hstop]).
  rewrite Ha. split; [|split].
  - intros [H0 H100]. destruct i as [|i].
    + unfold toneAt. simpl. destruct byDecreasingTone; lra.
    + assert (Hi : (i < n)%nat) by lia.
      destruct (Hcont i Hi) as [[Hi0 Hi100] _].
      pose proof (toneAt_value byDecreasingTone tone0 i) as Hv.
      pose proof (Zle_0_nat i) as Hnat.
      assert (Hq : 0 <= inject_Z (Z.of_nat i)).
      { change 0 with (inject_Z 0). rewrite <- Zle_Qle. exact Hnat. }
      change (toneOf (S i)) with (stepTone byDecreasingTone (toneOf i)).
      unfold stepTone. destruct byDecreasingTone; lra.
  - intros Hout. destruct n as [|n].
    + replace i with 0%nat by lia. reflexivity.
    + exfalso. apply Hout. apply (Hcont 0%nat). lia.
  - apply (Hmax 0%nat). lia.
Qed.

(** X3.  When a tone stepped to samples at least the target chroma, while
    every tone before it was inside [0,100] and sampled less than the target,
    the search answers that tone: the first tone, in the search direction,
    at which the target chroma is reached. *)
Theorem findBestToneForChroma_first_tone_reaching_target (k : nat) :
  (forall m, (m < k)%nat -> inToneRange (toneOf m) /\ sample m < chroma) ->
  chroma <= sample k ->
  findBestToneForChroma Hct_from hue chroma tone0 byDecreasingTone = toneOf k.
Proof.
  intros Hbefore Hreach.
  destruct (findBestToneForChroma_trace Hct_from hue chroma byDecreasingTone tone0)
    as (n & i & Ha & [[Hle Hmax Hfirst Hcont] Hstop]).
  rewrite Ha.
  assert (Hnk : (n <= k)%nat).
  { destruct (le_lt_dec n k) as [H|H]; [exact H|].
    destruct (Hcont k H) as [_ Hlow]. specialize (Hlow k (Nat.le_refl k)). lra. }
  assert (Hkn : n = k).
  { destruct (Nat.eq_dec n k) as [H|H]; [exact H|]. exfalso.
    assert (Hlt : (n < k)%nat) by lia.
    destruct (Hbefore n Hlt) as [[Hn0 Hn100] _].
    destruct Hstop as [Hstop|Hout]; [|destruct Hout; lra].
    assert (Hik : (i < k)%nat) by lia.
    destruct (Hbefore i Hik) as [_ Hlow]. lra. }
  subst n.
  destruct (Nat.eq_dec i k) as [->|Hne]; [reflexivity|]. exfalso.
  assert (Hik : (i < k)%nat) by lia.
  destruct (Hbefore i Hik) as [_ Hlow].
  specialize (Hmax k (Nat.le_refl k)). lra.
Qed.

(** X4.  When no tone the search steps through reaches the target chroma,
    the search runs to the end of the range and its answer samples the
    largest chroma of all the tones on the way: the starting tone, the tones
    stepped to inside [0,100] and the first tone past the range. *)
Theorem findBestToneForChroma_best_of_range_when_target_unreached :
  (forall k, (forall m, (m < k)%nat -> inToneRange (toneOf m)) ->
             sample k < chroma) ->
  forall k, (forall m, (m < k)%nat -> inToneRange (toneOf m)) ->
    sample k
    <= Hct.chroma
         (Hct_from hue chroma
            (findBestToneForChroma Hct_from hue chroma tone0 byDecreasingTone)).
Proof.
  intros Hunreached k Hk.
  destruct (findBestToneForChroma_trace Hct_from hue chroma byDecreasingTone tone0)
    as (n & i & Ha & [[Hle Hmax Hfirst Hcont] Hstop]).
  rewrite Ha. apply Hmax.
  destruct (le_lt_dec k n) as [H|H]; [exact H|]. exfalso.
  destruct (Hk n H) as [Hn0 Hn100].
  destruct Hstop as [Hstop|Hout]; [|destruct Hout; lra].
  assert (Hi : sample i < chroma).
  { apply Hunreached. intros m Hm. apply Hcont. lia. }
  lra.
Qed.
End SearchFurther.

(** X1.  The loop of the search ends within 101 steps from every starting
    tone: with 101 units of fuel or more it returns, and what it returns does
    not depend on the fuel.  The bound is reached: from tone 100 downwards a
    hundred steps are not enough when no tone improves on the first. *)
Theorem findBestToneForChroma_ends_within_101_steps :
  (forall (Hct_from : Q -> Q -> Q -> Hct.t) (hue chroma tone : Q)
          (byDecreasingTone : bool) (fuel : nat),
      (101 <= fuel)%nat ->
      findBestToneForChroma_fuel Hct_from fuel hue chroma tone byDecreasingTone
      = Some (findBestToneForChroma Hct_from hue chroma tone byDecreasingTone))
  /\ findBestToneForChroma_fuel flatHct_from 100 120 40 100 true = None.
Proof.
  split; [|vm_compute; reflexivity].
  intros Hct_from hue chroma tone byDecreasingTone fuel Hfuel.
  replace fuel with ((fuel - 101) + 101)%nat by lia.
  apply findBestToneForChroma_fuel_more.
  apply findBestToneForChroma_fuel_101.
Qed.

(** The lower end of the range of X2 is reached: the search answers -1. *)
Lemma findBestToneForChroma_answers_below_range :
  findBestToneForChroma lateHct_from 120 40 100 true = -1.
Proof. vm_compute. reflexivity. Qed.

Lemma findBestToneForChroma_first_tone_reaching_target_witness :
  findBestToneForChroma exampleHct_from 120 12 100 true
  = toneAt true 100 5.
Proof.
  apply (findBestToneForChroma_first_tone_reaching_target exampleHct_from
           120 12 true 100 5).
  - intros m Hm.
    do 5 (destruct m as [|m];
          [split; [split; vm_compute; discriminate|vm_compute; reflexivity]|]).
    lia.
  - vm_compute. discriminate.
Defined.

Lemma findBestToneForChroma_best_of_range_when_target_unreached_witness :
  sampleAt flatHct_from 120 40 true 100 3
  <= Hct.chroma
       (flatHct_from 120 40 (findBestToneForChroma flatHct_from 120 40 100 true)).
Proof.
  apply (findBestToneForChroma_best_of_range_when_target_unreached flatHct_from
           120 40 true 100).
  - intros k _. vm_compute. reflexivity.
  - intros m Hm.
    do 3 (destruct m as [|m]; [split; vm_compute; discriminate|]).
    lia.
Defined.

(** ** Piecewise hues *)

Section PiecewiseFurther.
Variable sanitizeDegreesDouble : Q -> Q.
Variable sourceHue : Q.
Variables hueBreakpoints hues : list Q.

Local Abbreviation inInterval :=
  (DynamicScheme.inBreakpointInterval sourceHue hueBreakpoints).

Lemma inBreakpointInterval_true (i : nat) (lo hi : Q) :
  nth_error hueBreakpoints i = Some lo ->
  nth_error hueBreakpoints (S i) = Some hi ->
  lo <= sourceHue -> sourceHue < hi ->
  inInterval i = true.
Proof.
  intros Hlo Hhi Hle Hlt. unfold DynamicScheme.inBreakpointInterval.
  rewrite Hlo, Hhi. apply andb_true_iff. split.
  - apply Qle_bool_iff. exact Hle.
  - apply Qltb_lt. exact Hlt.
Qed.

(** The loop returns at the first index whose interval holds the hue. *)
Lemma getPiecewiseHue_loop_first_match (n : nat) :
  forall i j : nat,
    (i <= j < i + n)%nat ->
    inInterval j = true ->
    (forall j', (i <= j' < j)%nat -> inInterval j' = false) ->
    DynamicScheme.getPiecewiseHue_loop sanitizeDegreesDouble n i sourceHue
      hueBreakpoints hues
    = Some (sanitizeDegreesDouble (nth j hues 0)).
Proof.
  induction n as [|n IH]; intros i j Hj Hin Hbefore; [lia|]. simpl.
  destruct (Nat.eq_dec i j) as [->|Hne].
  - rewrite Hin. reflexivity.
  - rewrite (Hbefore i) by lia. apply IH; [lia|exact Hin|].
    intros j' Hj'. apply Hbefore. lia.
Qed.

(** Between a breakpoint at or below the hue and a later breakpoint above
    it, some interval holds the hue; the breakpoints need not be sorted. *)
Lemma inBreakpointInterval_exists (n : nat) :
  forall (i : nat) (lo hi : Q),
    nth_error hueBreakpoints i = Some lo ->
    nth_error hueBreakpoints (i + n) = Some hi ->
    lo <= sourceHue -> sourceHue < hi ->
    exists j, (i <= j < i + n)%nat /\ inInterval j = true
              /\ forall j', (i <= j' < j)%nat -> inInterval j' = false.
Proof.
  induction n as [|n IH]; intros i lo hi Hlo Hhi Hle Hlt.
  - rewrite Nat.add_0_r, Hlo in Hhi. injection Hhi as <-. lra.
  - assert (Hlen : (S i < length hueBreakpoints)%nat).
    { assert (H : (i + S n < length hueBreakpoints)%nat).
      { apply nth_error_Some. rewrite Hhi. discriminate. }
      lia. }
    destruct (nth_error hueBreakpoints (S i)) as [mid|] eqn:Hmid.
    2:{ apply nth_error_None in Hmid. lia. }
    destruct (Qlt_le_dec sourceHue mid) as [Hltmid|Hgemid].
    + exists i. split; [lia|]. split.
      * apply (inBreakpointInterval_true i lo mid); assumption.
      * intros j' Hj'. lia.
    + replace (i + S n)%nat with (S i + n)%nat in Hhi by lia.
      destruct (IH (S i) mid hi Hmid Hhi Hgemid Hlt) as (j & Hj & Hin & Hbefore).
      exists j. split; [lia|]. split; [exact Hin|].
      intros j' Hj'. destruct (Nat.eq_dec j' i) as [->|Hne].
      * unfold DynamicScheme.inBreakpointInterval. rewrite Hlo, Hmid.
        apply andb_false_iff. right. apply Qltb_ge. exact Hgemid.
      * apply Hbefore. lia.
Qed.
End PiecewiseFurther.

(** X5.  [getPiecewiseHue] returns the sanitized entry of the first interval
    that holds the source hue, and [getRotatedHue] the sanitized sum of the
    source hue and that sanitized entry: the first matching interval wins,
    and a rotation is brought into range before it is added. *)
Theorem getPiecewiseHue_first_matching_interval
    (sanitizeDegreesDouble : Q -> Q) (sourceColorHct : Hct.t)
    (hueBreakpoints hues : list Q) (j : nat) (lo hi entry : Q) :
  (Z.of_nat j < DynamicScheme.piecewiseSize hueBreakpoints hues)%Z ->
  nth_error hueBreakpoints j = Some lo ->
  nth_error hueBreakpoints (S j) = Some hi ->
  nth_error hues j = Some entry ->
  lo <= Hct.hue sourceColorHct -> Hct.hue sourceColorHct < hi ->
  (forall (j' : nat) (lo' hi' : Q),
      (j' < j)%nat ->
      nth_error hueBreakpoints j' = Some lo' ->
      nth_error hueBreakpoints (S j') = Some hi' ->
      ~ (lo' <= Hct.hue sourceColorHct /\ Hct.hue sourceColorHct < hi')) ->
  DynamicScheme.getPiecewiseHue sanitizeDegreesDouble sourceColorHct
    hueBreakpoints hues = sanitizeDegreesDouble entry
  /\ DynamicScheme.getRotatedHue sanitizeDegreesDouble sourceColorHct
       hueBreakpoints hues
     = sanitizeDegreesDouble
         (Hct.hue sourceColorHct + sanitizeDegreesDouble entry).
Proof.
  intros Hsize Hlo Hhi Hentry Hle Hlt Hbefore.
  assert (Hpiece :
    DynamicScheme.getPiecewiseHue sanitizeDegreesDouble sourceColorHct
      hueBreakpoints hues = sanitizeDegreesDouble entry).
  { unfold DynamicScheme.getPiecewiseHue.
    rewrite (getPiecewiseHue_loop_first_match sanitizeDegreesDouble
               (Hct.hue sourceColorHct) hueBreakpoints hues _ 0 j).
    - rewrite (nth_error_nth _ _ 0 Hentry). reflexivity.
    - lia.
    - apply (inBreakpointInterval_true _ _ j lo hi); assumption.
    - intros j' Hj'. apply inBreakpointInterval_false. intros lo' hi'.
      apply Hbefore. lia. }
  split; [exact Hpiece|].
  unfold DynamicScheme.getRotatedHue. rewrite Hpiece.
  destruct (Z.leb_spec (DynamicScheme.piecewiseSize hueBreakpoints hues) 0);
    [lia|reflexivity].
Qed.

Lemma getPiecewiseHue_first_matching_interval_witness :
  DynamicScheme.getRotatedHue exampleSanitizeDegrees exampleSource
    [0; 38; 105; 161; 204; 278; 333; 360] [-32; 26; 10; -39; 24; -15; -32]
  = exampleSanitizeDegrees (50 + exampleSanitizeDegrees 26).
Proof.
  destruct (getPiecewiseHue_first_matching_interval exampleSanitizeDegrees
              exampleSource [0; 38; 105; 161; 204; 278; 333; 360]
              [-32; 26; 10; -39; 24; -15; -32] 1 38 105 26) as [_ Hrotated].
  - vm_compute. reflexivity.
  - reflexivity.
  - reflexivity.
  - reflexivity.
  - vm_compute. discriminate.
  - vm_compute. reflexivity.
  - intros j' lo' hi' Hj' Hlo' Hhi'.
    destruct j' as [|j']; [|lia].
    simpl in Hlo', Hhi'. injection Hlo' as <-. injection Hhi' as <-.
    intros [_ H]. revert H. vm_compute. discriminate.
  - exact Hrotated.
Defined.

(** A hue between the first breakpoint and the closing one gets a table
    entry. *)
Lemma getPiecewiseHue_covered
    (sanitizeDegreesDouble : Q -> Q) (sourceColorHct : Hct.t)
    (hueBreakpoints hues : list Q) (first last : Q) :
  (0 < DynamicScheme.piecewiseSize hueBreakpoints hues)%Z ->
  nth_error hueBreakpoints 0 = Some first ->
  nth_error hueBreakpoints
    (Z.to_nat (DynamicScheme.piecewiseSize hueBreakpoints hues)) = Some last ->
  first <= Hct.hue sourceColorHct -> Hct.hue sourceColorHct < last ->
  exists (j : nat) (entry : Q),
    (Z.of_nat j < DynamicScheme.piecewiseSize hueBreakpoints hues)%Z
    /\ nth_error hues j = Some entry
    /\ DynamicScheme.getPiecewiseHue sanitizeDegreesDouble sourceColorHct
         hueBreakpoints hues = sanitizeDegreesDouble entry
    /\ DynamicScheme.getRotatedHue sanitizeDegreesDouble sourceColorHct
         hueBreakpoints hues
       = sanitizeDegreesDouble
           (Hct.hue sourceColorHct + sanitizeDegreesDouble entry).
Proof.
  intros Hsize Hfirst Hlast Hle Hlt.
  destruct (inBreakpointInterval_exists (Hct.hue sourceColorHct) hueBreakpoints
              (Z.to_nat (DynamicScheme.piecewiseSize hueBreakpoints hues))
              0 first last Hfirst Hlast Hle Hlt) as (j & Hj & Hin & Hbefore).
  assert (Hjsize : (Z.of_nat j < DynamicScheme.piecewiseSize hueBreakpoints hues)%Z)
    by lia.
  assert (Hjlen : (j < length hues)%nat).
  { unfold DynamicScheme.piecewiseSize in Hjsize. lia. }
  destruct (nth_error hues j) as [entry|] eqn:Hentry.
  2:{ apply nth_error_None in Hentry. lia. }
  exists j, entry. split; [exact Hjsize|]. split; [exact Hentry|].
  assert (Hpiece :
    DynamicScheme.getPiecewiseHue sanitizeDegreesDouble sourceColorHct
      hueBreakpoints hues = sanitizeDegreesDouble entry).
  { unfold DynamicScheme.getPiecewiseHue.
    rewrite (getPiecewiseHue_loop_first_match sanitizeDegreesDouble
               (Hct.hue sourceColorHct) hueBreakpoints hues _ 0 j Hj Hin Hbefore).
    rewrite (nth_error_nth _ _ 0 Hentry). reflexivity. }
  split; [exact Hpiece|].
  unfold DynamicScheme.getRotatedHue. rewrite Hpiece.
  destruct (Z.leb_spec (DynamicScheme.piecewiseSize hueBreakpoints hues) 0);
    [lia|reflexivity].
Qed.


(** X6.  When the source hue is at least the first breakpoint and below the
    breakpoint that closes the last interval, some interval holds it, so
    [getPiecewiseHue] returns a sanitized table entry, never the source hue,
    and [getRotatedHue] never adds the source hue to itself.  The
    breakpoints need not be sorted for this. *)
Theorem getPiecewiseHue_covered_hue_gets_table_entry
    (sanitizeDegreesDouble : Q -> Q) (sourceColorHct : Hct.t)
    (hueBreakpoints hues : list Q) (first last : Q) :
  (0 < DynamicScheme.piecewiseSize hueBreakpoints hues)%Z ->
  nth_error hueBreakpoints 0 = Some first ->
  nth_error hueBreakpoints
    (Z.to_nat (DynamicScheme.piecewiseSize hueBreakpoints hues)) = Some last ->
  first <= Hct.hue sourceColorHct -> Hct.hue sourceColorHct < last ->
  exists (j : nat) (entry : Q),
    (Z.of_nat j < DynamicScheme.piecewiseSize hueBreakpoints hues)%Z
    /\ nth_error hues j = Some entry
    /\ DynamicScheme.getPiecewiseHue sanitizeDegreesDouble sourceColorHct
         hueBreakpoints hues = sanitizeDegreesDouble entry
    /\ DynamicScheme.getRotatedHue sanitizeDegreesDouble sourceColorHct
         hueBreakpoints hues
       = sanitizeDegreesDouble
           (Hct.hue sourceColorHct + sanitizeDegreesDouble entry).
Proof.
  exact (getPiecewiseHue_covered sanitizeDegreesDouble sourceColorHct
           hueBreakpoints hues first last).
Qed.

Lemma getPiecewiseHue_covered_hue_gets_table_entry_witness :
  exists (j : nat) (entry : Q),
    (Z.of_nat j < DynamicScheme.piecewiseSize errorBreakpoints2025 errorHues2025)%Z
    /\ nth_error errorHues2025 j = Some entry
    /\ DynamicScheme.getPiecewiseHue exampleSanitizeDegrees exampleSource
         errorBreakpoints2025 errorHues2025 = exampleSanitizeDegrees entry
    /\ DynamicScheme.getRotatedHue exampleSanitizeDegrees exampleSource
         errorBreakpoints2025 errorHues2025
       = exampleSanitizeDegrees (50 + exampleSanitizeDegrees entry).
Proof.
  apply (getPiecewiseHue_covered_hue_gets_table_entry exampleSanitizeDegrees
           exampleSource errorBreakpoints2025 errorHues2025 0 360).
  - vm_compute. reflexivity.
  - reflexivity.
  - reflexivity.
  - vm_compute. discriminate.
  - vm_compute. reflexivity.
Defined.

(** ** The palettes of the 2025 delegate *)

Lemma Qgeb_false (x y : Q) : Qgeb x y = false <-> x < y.
Proof.
  unfold Qgeb. split; intros H.
  - apply Qnot_le_lt. intros Hle. apply Qle_bool_iff in Hle. congruence.
  - destruct (Qle_bool y x) eqn:E; [|reflexivity].
    apply Qle_bool_iff in E. lra.
Qed.

(** A hue below every breakpoint, or at or above every breakpoint, is in no
    interval. *)
Lemma inBreakpointInterval_outside (sourceHue : Q) (hueBreakpoints : list Q)
    (i : nat) :
  (forall lo, In lo hueBreakpoints -> sourceHue < lo)
  \/ (forall hi, In hi hueBreakpoints -> hi <= sourceHue) ->
  DynamicScheme.inBreakpointInterval sourceHue hueBreakpoints i = false.
Proof.
  intros Hout. apply inBreakpointInterval_false. intros lo hi Hlo Hhi [Hle Hlt].
  apply nth_error_In in Hlo, Hhi.
  destruct Hout as [Hbelow|Habove].
  - specialize (Hbelow lo Hlo). lra.
  - specialize (Habove hi Hhi). lra.
Qed.

Section Palettes2025Further.
Variable KeyColor_create : Q -> Q -> Hct.t.
Variable Hct_isBlue : Q -> bool.
Variable sanitizeDegreesDouble : Q -> Q.

Local Abbreviation delegate2025 :=
  (getSpec KeyColor_create Hct_isBlue sanitizeDegreesDouble V2025).
Local Abbreviation delegate2021 :=
  (getSpec KeyColor_create Hct_isBlue sanitizeDegreesDouble V2021).

(** X7.  The error palette of the 2025 delegate has chroma 50.  For a source
    hue in [0,360) its hue is the sanitized value of 12, 22 or 32, never the
    source hue; for a source hue outside [0,360) no interval of the table
    matches and the palette takes the source hue as it is, unsanitized. *)
Theorem spec2025_errorPalette_hue (sourceColorHct : Hct.t) (isDark : bool)
    (contrastLevel : Q) :
  (0 <= Hct.hue sourceColorHct -> Hct.hue sourceColorHct < 360 ->
   exists entry : Q,
     In entry [12; 22; 32]
     /\ DynamicSchemePalettesDelegate.getErrorPalette delegate2025
          sourceColorHct isDark contrastLevel
        = Some (TonalPalette.fromHueAndChroma KeyColor_create
                  (sanitizeDegreesDouble entry) 50))
  /\ (Hct.hue sourceColorHct < 0 \/ 360 <= Hct.hue sourceColorHct ->
      DynamicSchemePalettesDelegate.getErrorPalette delegate2025
        sourceColorHct isDark contrastLevel
      = Some (TonalPalette.fromHueAndChroma KeyColor_create
                (Hct.hue sourceColorHct) 50)).
Proof.
  split.
  - intros H0 H360.
    destruct (getPiecewiseHue_covered sanitizeDegreesDouble sourceColorHct
                errorBreakpoints2025 errorHues2025 0 360)
      as (j & entry & Hj & Hentry & Hpiece & _);
      [reflexivity|reflexivity|reflexivity|exact H0|exact H360|].
    exists entry. split.
    + apply nth_error_In in Hentry. simpl in Hentry. simpl. tauto.
    + cbn [getSpec spec2025 DynamicSchemePalettesDelegate.getErrorPalette].
      change [0; 3; 13; 23; 33; 43; 153; 273; 360] with errorBreakpoints2025.
      change [12; 22; 32; 12; 22; 32; 22; 12] with errorHues2025.
      rewrite Hpiece. reflexivity.
  - intros Hout.
    cbn [getSpec spec2025 DynamicSchemePalettesDelegate.getErrorPalette].
    unfold DynamicScheme.getPiecewiseHue.
    rewrite getPiecewiseHue_loop_unmatched; [reflexivity|].
    intros j _. apply inBreakpointInterval_outside.
    destruct Hout as [Hneg|Hbig]; [left|right]; intros b Hb; simpl in Hb;
      repeat (destruct Hb as [<-|Hb]; [lra|]); contradiction.
Qed.

(** X8.  The tertiary palette of the 2025 delegate has chroma 20.  For a
    source hue in [0,360) its hue is the source hue rotated by one of the
    rotations of the table, the rotation being sanitized before it is added;
    for a source hue outside [0,360) no interval matches and the hue is the
    sanitized double of the source hue. *)
Theorem spec2025_tertiaryPalette_hue (sourceColorHct : Hct.t) (isDark : bool)
    (contrastLevel : Q) :
  (0 <= Hct.hue sourceColorHct -> Hct.hue sourceColorHct < 360 ->
   exists rotation : Q,
     In rotation [-32; 26; 10; -39; 24; -15]
     /\ DynamicSchemePalettesDelegate.getTertiaryPalette delegate2025
          sourceColorHct isDark contrastLevel
        = TonalPalette.fromHueAndChroma KeyColor_create
            (sanitizeDegreesDouble
               (Hct.hue sourceColorHct + sanitizeDegreesDouble rotation)) 20)
  /\ (Hct.hue sourceColorHct < 0 \/ 360 <= Hct.hue sourceColorHct ->
      DynamicSchemePalettesDelegate.getTertiaryPalette delegate2025
        sourceColorHct isDark contrastLevel
      = TonalPalette.fromHueAndChroma KeyColor_create
          (sanitizeDegreesDouble
             (Hct.hue sourceColorHct + Hct.hue sourceColorHct)) 20).
Proof.
  split.
  - intros H0 H360.
    destruct (getPiecewiseHue_covered sanitizeDegreesDouble sourceColorHct
                tertiaryBreakpoints2025 tertiaryRotations2025 0 360)
      as (j & rotation & Hj & Hentry & _ & Hrotated);
      [reflexivity|reflexivity|reflexivity|exact H0|exact H360|].
    exists rotation. split.
    + apply nth_error_In in Hentry. simpl in Hentry. simpl. tauto.
    + cbn [getSpec spec2025 DynamicSchemePalettesDelegate.getTertiaryPalette].
      change [0; 38; 105; 161; 204; 278; 333; 360] with tertiaryBreakpoints2025.
      change [-32; 26; 10; -39; 24; -15; -32] with tertiaryRotations2025.
      rewrite Hrotated. reflexivity.
  - intros Hout.
    cbn [getSpec spec2025 DynamicSchemePalettesDelegate.getTertiaryPalette].
    unfold DynamicScheme.getRotatedHue, DynamicScheme.getPiecewiseHue.
    rewrite getPiecewiseHue_loop_unmatched; [reflexivity|].
    intros j _. apply inBreakpointInterval_outside.
    destruct Hout as [Hneg|Hbig]; [left|right]; intros b Hb; simpl in Hb;
      repeat (destruct Hb as [<-|Hb]; [lra|]); contradiction.
Qed.
End Palettes2025Further.

(** ** The palettes of the two versions *)

Section VersionsFurther.
Variable KeyColor_create : Q -> Q -> Hct.t.
Variable Hct_isBlue : Q -> bool.
Variable sanitizeDegreesDouble : Q -> Q.

Local Abbreviation schemeOf :=
  (fun source level dark version =>
     newDynamicScheme KeyColor_create Hct_isBlue sanitizeDegreesDouble
       (generatedOptions source level dark (Some version))).

(** X9.  Two schemes constructed from the same source color, dark flag and
    contrast level without palettes of the caller's, one for 2021 and one for
    2025: in both the primary, secondary, neutral and neutral-variant
    palettes keep the hue of the source color; their primary chromas are
    equal exactly when the source hue is blue; their secondary, neutral,
    neutral-variant and error chromas are never equal. *)
Theorem versions_generate_different_palettes (source : Hct.t) (level : Q)
    (dark : bool) :
  (forall version : SpecVersion,
      TonalPalette.hue (DynamicScheme.primaryPalette (schemeOf source level dark version))
      = Hct.hue source
      /\ TonalPalette.hue (DynamicScheme.secondaryPalette (schemeOf source level dark version))
         = Hct.hue source
      /\ TonalPalette.hue (DynamicScheme.neutralPalette (schemeOf source level dark version))
         = Hct.hue source
      /\ TonalPalette.hue
           (DynamicScheme.neutralVariantPalette (schemeOf source level dark version))
         = Hct.hue source)
  /\ (TonalPalette.chroma (DynamicScheme.primaryPalette (schemeOf source level dark V2021))
      == TonalPalette.chroma (DynamicScheme.primaryPalette (schemeOf source level dark V2025))
      <-> Hct_isBlue (Hct.hue source) = true)
  /\ ~ TonalPalette.chroma (DynamicScheme.secondaryPalette (schemeOf source level dark V2021))
       == TonalPalette.chroma (DynamicScheme.secondaryPalette (schemeOf source level dark V2025))
  /\ ~ TonalPalette.chroma (DynamicScheme.neutralPalette (schemeOf source level dark V2021))
       == TonalPalette.chroma (DynamicScheme.neutralPalette (schemeOf source level dark V2025))
  /\ ~ TonalPalette.chroma
         (DynamicScheme.neutralVariantPalette (schemeOf source level dark V2021))
       == TonalPalette.chroma
            (DynamicScheme.neutralVariantPalette (schemeOf source level dark V2025))
  /\ ~ TonalPalette.chroma (DynamicScheme.errorPalette (schemeOf source level dark V2021))
       == TonalPalette.chroma (DynamicScheme.errorPalette (schemeOf source level dark V2025)).
Proof.
  split; [intros [|]; repeat split|].
  cbn. destruct (Hct_isBlue (Hct.hue source)).
  - repeat split; try discriminate; try reflexivity.
  - repeat split; try discriminate.
Qed.
End VersionsFurther.

(** ** The contrast curves *)

(** X10.  [getCurve] gives every default contrast a curve whose low and
    normal ratios are that contrast and whose high ratio is at most 21 when
    the contrast is.  The curve does not decrease from low to high contrast
    for the tabled contrasts 9, 11 and 21 and for every contrast up to 7; for
    a contrast strictly between 7 and 9 the fallback curve drops from normal
    to medium. *)
Theorem getCurve_low_normal_and_monotone (defaultContrast : Q) :
  ContrastCurve.low (getCurve defaultContrast) == defaultContrast
  /\ ContrastCurve.normal (getCurve defaultContrast) == defaultContrast
  /\ (defaultContrast <= 21 -> ContrastCurve.high (getCurve defaultContrast) <= 21)
  /\ (defaultContrast <= 7 \/ defaultContrast == 9 \/ defaultContrast == 11
      \/ defaultContrast == 21 ->
      curveMonotone (getCurve defaultContrast))
  /\ (7 < defaultContrast -> defaultContrast < 9 ->
      ContrastCurve.medium (getCurve defaultContrast)
      < ContrastCurve.normal (getCurve defaultContrast)).
Proof.
  unfold getCurve, curveMonotone.
  repeat match goal with
         | |- context [Qeq_bool defaultContrast ?c] =>
             let E := fresh "E" in
             destruct (Qeq_bool defaultContrast c) eqn:E;
             [apply Qeq_bool_iff in E|apply Qeq_bool_neq in E]
         end;
    cbn [ContrastCurve.low ContrastCurve.normal ContrastCurve.medium
         ContrastCurve.high];
    repeat split; intros; try lra;
    repeat match goal with
           | H : _ \/ _ |- _ => destruct H
           end; try lra.
Qed.

(** ** Invariants of the 2025 catalog *)

Lemma tMaxC_within (Hct_from : Q -> Q -> Q -> Hct.t) (palette : TonalPalette.t)
    (lowerBound upperBound chromaMultiplier : Q) :
  lowerBound <= upperBound ->
  lowerBound <= tMaxC Hct_from palette lowerBound upperBound chromaMultiplier
  /\ tMaxC Hct_from palette lowerBound upperBound chromaMultiplier <= upperBound.
Proof. intros Hle. unfold tMaxC. apply clampDouble_within. exact Hle. Qed.

Lemma tMinC_within (Hct_from : Q -> Q -> Q -> Hct.t) (palette : TonalPalette.t)
    (lowerBound upperBound : Q) :
  lowerBound <= upperBound ->
  lowerBound <= tMinC Hct_from palette lowerBound upperBound
  /\ tMinC Hct_from palette lowerBound upperBound <= upperBound.
Proof. intros Hle. unfold tMinC. apply clampDouble_within. exact Hle. Qed.

Section Catalog2025Further.
Variable Hct_from : Q -> Q -> Q -> Hct.t.
Variable Hct_isYellow : Q -> bool.
Variable DynamicColor_getTone : Role.t -> DynamicScheme.t -> Q.
Variable DynamicColor_getInitialToneFromBackground :
  (DynamicScheme.t -> Role.t) -> DynamicScheme.t -> Q.

Local Abbreviation node :=
  (ColorSpecDelegateImpl2025.node Hct_from Hct_isYellow DynamicColor_getTone
     DynamicColor_getInitialToneFromBackground).

#[local] Arguments tMaxC : simpl never.
#[local] Arguments tMinC : simpl never.
#[local] Arguments getCurve : simpl never.

(** Bounds of a search tone, from the window of its clamp. *)
Ltac search_tone_bounds :=
  repeat match goal with
         | |- context [tMaxC ?f ?p ?lo ?hi ?m] =>
             lazymatch goal with
             | _ : lo <= tMaxC f p lo hi m /\ _ |- _ => fail
             | _ => pose proof (tMaxC_within f p lo hi m ltac:(lra))
             end
         | |- context [tMinC ?f ?p ?lo ?hi] =>
             lazymatch goal with
             | _ : lo <= tMinC f p lo hi /\ _ |- _ => fail
             | _ => pose proof (tMinC_within f p lo hi ltac:(lra))
             end
         end.

(** X11.  Every tone selector of the catalog that is a fixed table or a
    chroma-tone search gives a tone in [0,100], on every scheme. *)
Theorem catalog_tone_rules_in_range (r : Role.t) (s : DynamicScheme.t)
    (tone : Q) :
  ~ In r toneFromCollaborator ->
  DynamicColor.toneRuleAt (node r) s = Some tone ->
  0 <= tone /\ tone <= 100.
Proof.
  intros Hout Hrule. unfold DynamicColor.toneRuleAt in Hrule.
  destruct r; try (exfalso; apply Hout; simpl; tauto);
    cbn in Hrule; try discriminate Hrule; injection Hrule as <-;
    repeat match goal with
           | |- context [if ?b then _ else _] => destruct b
           end;
    search_tone_bounds; lra.
Qed.

(** X12.  The windows of the accent tones: the tertiary container stays at
    or below tone 93 in dark mode and 96 in light mode; the error container
    stays within [30,93] in dark mode and at or below 90 in light mode; in
    dark mode the secondary, tertiary and error tones stay at or below 98. *)
Theorem catalog_accent_tone_windows (s : DynamicScheme.t) (tone : Q) :
  (DynamicColor.toneRuleAt (node Role.tertiaryContainer) s = Some tone ->
   tone <= (if DynamicScheme.isDark s then 93 else 96))
  /\ (DynamicColor.toneRuleAt (node Role.errorContainer) s = Some tone ->
      if DynamicScheme.isDark s then 30 <= tone /\ tone <= 93 else tone <= 90)
  /\ (DynamicScheme.isDark s = true ->
      forall r, In r [Role.secondary; Role.tertiary; Role.error] ->
      DynamicColor.toneRuleAt (node r) s = Some tone -> tone <= 98).
Proof.
  unfold DynamicColor.toneRuleAt. split; [|split].
  - cbn. intros Hrule. injection Hrule as <-.
    destruct (DynamicScheme.isDark s); search_tone_bounds; lra.
  - cbn. intros Hrule. injection Hrule as <-.
    destruct (DynamicScheme.isDark s); search_tone_bounds; lra.
  - intros Hdark r Hin Hrule. simpl in Hin.
    repeat (destruct Hin as [<-|Hin];
            [cbn in Hrule; rewrite Hdark in Hrule; injection Hrule as <-;
             search_tone_bounds; lra|]).
    contradiction.
Qed.

(** X13.  On every scheme the chroma multiplier of every role lies between
    1 and 2.5: the catalog never lowers the chroma of a palette. *)
Theorem catalog_chromaMultiplier_range (r : Role.t) (s : DynamicScheme.t) :
  1 <= DynamicColor.chromaMultiplierAt (node r) s
  /\ DynamicColor.chromaMultiplierAt (node r) s <= 2.5.
Proof.
  unfold DynamicColor.chromaMultiplierAt.
  destruct r; cbn; try destruct (DynamicScheme.isDark s); cbn; split; lra.
Qed.

(** X14.  Backgrounds: the role a node names as its background is flagged
    [isBackground]; a background of a background has no background itself,
    so a chain of background references has at most two links. *)
Theorem catalog_background_chain (r b : Role.t) (s : DynamicScheme.t) :
  backgroundAt (node r) s = Some b ->
  DynamicColor.isBackground (node b) = true
  /\ forall b2 : Role.t,
       backgroundAt (node b) s = Some b2 ->
       DynamicColor.isBackground (node b2) = true
       /\ backgroundAt (node b2) s = None.
Proof.
  unfold backgroundAt, ColorSpecDelegateImpl2025.highestSurface.
  intros Hb.
  destruct r; cbn in Hb; try discriminate Hb; injection Hb as <-;
    unfold ColorSpecDelegateImpl2025.highestSurface;
    destruct (DynamicScheme.isDark s) eqn:Hdark; cbn;
    (split; [reflexivity|]); intros b2 Hb2; try discriminate Hb2;
    injection Hb2 as <-;
    unfold ColorSpecDelegateImpl2025.highestSurface; rewrite ?Hdark; cbn;
    split; reflexivity.
Qed.

(** X15.  Every node that has no tone selector has a background and, on
    every scheme, a contrast curve, so its tone can be found by contrast;
    and a node has a contrast-curve selector exactly when it has a background
    selector. *)
Theorem catalog_toneless_nodes_have_contrast (r : Role.t) :
  (DynamicColor.tone (node r) = None ->
   forall s : DynamicScheme.t,
     exists (b : Role.t) (curve : ContrastCurve.t),
       backgroundAt (node r) s = Some b
       /\ contrastCurveAt (node r) s = Some curve)
  /\ (DynamicColor.contrastCurve (node r) = None
      <-> DynamicColor.background (node r) = None).
Proof.
  unfold backgroundAt, contrastCurveAt.
  split.
  - intros Htone s.
    destruct r; cbn in Htone; try discriminate Htone; cbn;
      eexists; eexists; split; reflexivity.
  - destruct r; cbn; split; intros H; try discriminate H; reflexivity.
Qed.

(** X16.  Tone-delta pairs: every pair a node declares asks for a delta of 5
    with [stayTogether], joins two different roles that are both flagged
    [isBackground] and draw from the palette of the declaring node, and has
    the declaring role as a member unless that role is a remapped clone. *)
Theorem catalog_toneDeltaPairs (r : Role.t) (s : DynamicScheme.t)
    (deltaPair : ToneDeltaPair.t) :
  toneDeltaPairAt (node r) s = Some deltaPair ->
  ToneDeltaPair.delta deltaPair = 5
  /\ ToneDeltaPair.stayTogether deltaPair = true
  /\ ToneDeltaPair.roleA deltaPair <> ToneDeltaPair.roleB deltaPair
  /\ DynamicColor.isBackground (node (ToneDeltaPair.roleA deltaPair)) = true
  /\ DynamicColor.isBackground (node (ToneDeltaPair.roleB deltaPair)) = true
  /\ DynamicColor.palette (node (ToneDeltaPair.roleA deltaPair)) s
     = DynamicColor.palette (node r) s
  /\ DynamicColor.palette (node (ToneDeltaPair.roleB deltaPair)) s
     = DynamicColor.palette (node r) s
  /\ (~ In r remappedRoles ->
      r = ToneDeltaPair.roleA deltaPair \/ r = ToneDeltaPair.roleB deltaPair).
Proof.
  unfold toneDeltaPairAt. intros Hpair.
  destruct r; cbn in Hpair; try discriminate Hpair; injection Hpair as <-;
    cbn; repeat split; try discriminate; try tauto.
Qed.

(** X17.  Every contrast curve the catalog gives a node, on any scheme, does
    not decrease from low to high contrast, starts at a ratio of at least
    1.5 and ends at a ratio of at most 21. *)
Theorem catalog_curves_monotone (r : Role.t) (s : DynamicScheme.t)
    (curve : ContrastCurve.t) :
  contrastCurveAt (node r) s = Some curve ->
  curveMonotone curve
  /\ 1.5 <= ContrastCurve.low curve
  /\ ContrastCurve.high curve <= 21.
Proof.
  unfold contrastCurveAt, curveMonotone. intros Hcurve.
  destruct r; cbn in Hcurve; try discriminate Hcurve;
    try destruct (DynamicScheme.isDark s);
    try destruct (Qltb 0 (DynamicScheme.contrastLevel s));
    try discriminate Hcurve; injection Hcurve as <-;
    vm_compute; repeat split; discriminate.
Qed.

(** X18.  The five surface containers are strictly ordered by elevation on
    every scheme: from lowest to highest the tone rises in dark mode and
    falls in light mode, and the chroma multiplier rises. *)
Theorem catalog_surface_containers_ordered (s : DynamicScheme.t) :
  exists t0 t1 t2 t3 t4 : Q,
    DynamicColor.toneRuleAt (node Role.surfaceContainerLowest) s = Some t0
    /\ DynamicColor.toneRuleAt (node Role.surfaceContainerLow) s = Some t1
    /\ DynamicColor.toneRuleAt (node Role.surfaceContainer) s = Some t2
    /\ DynamicColor.toneRuleAt (node Role.surfaceContainerHigh) s = Some t3
    /\ DynamicColor.toneRuleAt (node Role.surfaceContainerHighest) s = Some t4
    /\ (if DynamicScheme.isDark s
        then t0 < t1 /\ t1 < t2 /\ t2 < t3 /\ t3 < t4
        else t4 < t3 /\ t3 < t2 /\ t2 < t1 /\ t1 < t0)
    /\ DynamicColor.chromaMultiplierAt (node Role.surfaceContainerLowest) s
       < DynamicColor.chromaMultiplierAt (node Role.surfaceContainerLow) s
    /\ DynamicColor.chromaMultiplierAt (node Role.surfaceContainerLow) s
       < DynamicColor.chromaMultiplierAt (node Role.surfaceContainer) s
    /\ DynamicColor.chromaMultiplierAt (node Role.surfaceContainer) s
       < DynamicColor.chromaMultiplierAt (node Role.surfaceContainerHigh) s
    /\ DynamicColor.chromaMultiplierAt (node Role.surfaceContainerHigh) s
       < DynamicColor.chromaMultiplierAt (node Role.surfaceContainerHighest) s.
Proof.
  unfold DynamicColor.toneRuleAt, DynamicColor.chromaMultiplierAt. cbn.
  destruct (DynamicScheme.isDark s);
    destruct (Hct_isYellow (TonalPalette.hue (DynamicScheme.neutralPalette s)));
    do 5 eexists; repeat split; reflexivity.
Qed.

(** X19.  The yellow hue family only ever raises a surface tone: between two
    light schemes, one with a yellow neutral hue and one without, every
    surface is at least as light on the yellow one, and strictly lighter
    except for the lowest container, which is at tone 100 on both; between
    two dark schemes the surface tones do not depend on the hue. *)
Theorem catalog_yellow_surfaces_lighter (r : Role.t)
    (yellow plain : DynamicScheme.t) (toneYellow tonePlain : Q) :
  In r Role.surfaceRoles ->
  DynamicScheme.isDark yellow = DynamicScheme.isDark plain ->
  Hct_isYellow (TonalPalette.hue (DynamicScheme.neutralPalette yellow)) = true ->
  Hct_isYellow (TonalPalette.hue (DynamicScheme.neutralPalette plain)) = false ->
  DynamicColor.toneRuleAt (node r) yellow = Some toneYellow ->
  DynamicColor.toneRuleAt (node r) plain = Some tonePlain ->
  if DynamicScheme.isDark plain then toneYellow = tonePlain
  else tonePlain <= toneYellow
       /\ (r <> Role.surfaceContainerLowest -> tonePlain < toneYellow).
Proof.
  unfold DynamicColor.toneRuleAt.
  intros Hin Hdark Hyellow Hplain Hty Htp. simpl in Hin.
  repeat (destruct Hin as [<-|Hin];
          [cbn in Hty, Htp; rewrite Hdark, ?Hyellow in Hty;
           rewrite ?Hplain in Htp;
           destruct (DynamicScheme.isDark plain);
           injection Hty as <-; injection Htp as <-;
           [reflexivity|split; [lra|intros Hne; try lra; congruence]]|]).
  contradiction.
Qed.

(** X20.  The fixed roles do not follow the theme: the tone selectors of
    [primaryFixed], [secondaryFixed] and [tertiaryFixed] give the same tone
    whatever the dark flag and the contrast level of the scheme, and no
    palette selector of the catalog looks at either. *)
Theorem catalog_fixed_roles_ignore_mode (s : DynamicScheme.t) (dark : bool)
    (level : Q) :
  (forall r,
      In r [Role.primaryFixed; Role.secondaryFixed; Role.tertiaryFixed] ->
      DynamicColor.toneRuleAt (node r)
        (DynamicScheme.assign_isDark_contrastLevel s dark level)
      = DynamicColor.toneRuleAt (node r) s)
  /\ (forall r : Role.t,
        DynamicColor.palette (node r)
          (DynamicScheme.assign_isDark_contrastLevel s dark level)
        = DynamicColor.palette (node r) s).
Proof.
  split.
  - intros r Hin. simpl in Hin.
    repeat (destruct Hin as [<-|Hin]; [reflexivity|]). contradiction.
  - intros r. destruct r; reflexivity.
Qed.

(** X21.  The names of the catalog are unique ids: two roles have nodes of
    the same name only if they are the same role. *)
Theorem catalog_names_identify_roles (r1 r2 : Role.t) :
  DynamicColor.name (node r1) = DynamicColor.name (node r2) <-> r1 = r2.
Proof.
  split.
  - apply node_name_injective.
  - intros ->. reflexivity.
Qed.
End Catalog2025Further.

Lemma catalog_tone_rules_in_range_witness :
  0 <= 90 /\ 90 <= 100.
Proof.
  apply (catalog_tone_rules_in_range exampleHct_from (fun _ => false)
           (fun _ _ => 50) (fun _ _ => 50)
           Role.primaryContainer exampleScheme2021 90).
  - simpl. intros H.
    repeat (destruct H as [H|H]; [discriminate H|]). exact H.
  - reflexivity.
Defined.

Lemma catalog_background_chain_witness :
  DynamicColor.isBackground (exampleNode Role.primary) = true
  /\ forall b2 : Role.t,
       backgroundAt (exampleNode Role.primary) exampleScheme2021 = Some b2 ->
       DynamicColor.isBackground (exampleNode b2) = true
       /\ backgroundAt (exampleNode b2) exampleScheme2021 = None.
Proof.
  apply (catalog_background_chain exampleHct_from (fun _ => false)
           (fun _ _ => 50) (fun _ _ => 50)
           Role.onPrimary Role.primary exampleScheme2021).
  reflexivity.
Defined.

Lemma catalog_toneDeltaPairs_witness :
  ToneDeltaPair.delta
    (ToneDeltaPair.mk Role.primaryContainer Role.primary 5
       ToneDeltaPair.relative_lighter true ToneDeltaPair.farther) = 5.
Proof.
  apply (catalog_toneDeltaPairs exampleHct_from (fun _ => false)
           (fun _ _ => 50) (fun _ _ => 50) Role.primary exampleScheme2021).
  reflexivity.
Defined.

Lemma catalog_curves_monotone_witness :
  curveMonotone (getCurve 6).
Proof.
  apply (catalog_curves_monotone exampleHct_from (fun _ => false)
           (fun _ _ => 50) (fun _ _ => 50) Role.onPrimary exampleScheme2021).
  reflexivity.
Defined.

Lemma catalog_yellow_surfaces_lighter_witness :
  98 <= 99 /\ (Role.surface <> Role.surfaceContainerLowest -> 98 < 99).
Proof.
  apply (catalog_yellow_surfaces_lighter exampleHct_from exampleIsYellow
           (fun _ _ => 50) (fun _ _ => 50) Role.surface
           exampleYellowScheme exampleScheme2021 99 98).
  - simpl. tauto.
  - reflexivity.
  - vm_compute. reflexivity.
  - vm_compute. reflexivity.
  - reflexivity.
  - reflexivity.
Defined.
